(** * echolog: a shallow embedding of [echolog.py]

    The module is a thin layer over Python's [logging] package.  It
    registers one extra severity ([ECHO]), installs a colourising formatter on
    a console handler, and offers [echo] (print the source text of every
    argument next to its value) and [newline].

    Layout of this file:
    - [Py]: the handful of Python built-ins the module calls on strings
      ([str.split], [re.search] with the one pattern used, [os.path.split]).
    - [Ansi]: the colour table [C] built at import time.
    - [logging]: the part of the [logging] package the module drives: the
      process-wide namespace, the level-name table, the logger tree, handlers,
      records and %-style formatting.
    - then the functions of [echolog.py] themselves, under their own names.

    Integers are [Z]; Python dictionaries are [gmap]s where only lookup matters
    and association lists where the iteration order is visible.  Code that
    raises leaves the state as mutated so far, so every effectful function is
    a state transformer returning either a value or the exception.

    Levels are integers throughout (the [level] argument of [get_logger] may
    also be a level name in Python; names of levels are not followed here, and
    [_nameToLevel], which only serves that lookup, is left out).  The clock is
    an argument of the functions that create a record. *)

From stdpp Require Import gmap strings list fin_maps pretty.
From Stdlib Require Import Ascii ZArith.

Local Open Scope Z_scope.
Local Open Scope string_scope.

(** ** Python built-ins on strings *)

Module Py.

Definition LF : ascii := "010"%char.
Definition TAB : ascii := "009"%char.
Definition ESC : ascii := "027"%char.

Definition ch (c : ascii) : string := String c "".

(** [sep.join(pieces)] *)
Fixpoint join (sep : string) (pieces : list string) : string :=
  match pieces with
  | [] => ""
  | [p] => p
  | p :: rest => p +:+ sep +:+ join sep rest
  end.

(** [s.split(sep)] for a non-empty separator: occurrences are found from the
    left and do not overlap.  [skip] counts the characters of a separator just
    matched that are still to be dropped; [cur] is the piece being read,
    last character first. *)
Fixpoint split_go (sep : string) (skip : nat) (cur : string) (s : string)
  : list string :=
  match s with
  | "" => [String.rev cur]
  | String c s' =>
      match skip with
      | S k => split_go sep k cur s'
      | O =>
          if String.prefix sep s
          then String.rev cur :: split_go sep (Nat.pred (String.length sep)) "" s'
          else split_go sep O (String c cur) s'
      end
  end.

Definition split (sep s : string) : list string := split_go sep O "" s.

(** The pattern searched for is: an opening parenthesis, a greedy group of
    any characters, a closing parenthesis.  This is its tail once the opening
    parenthesis has been consumed: the dot never matches a line feed, and the
    greedy star runs the group to the last closing parenthesis of the line. *)
Fixpoint re_group_to_last_close (s : string) : option string :=
  match s with
  | "" => None
  | String c s' =>
      if Ascii.eqb c LF then None
      else match re_group_to_last_close s' with
           | Some g => Some (String c g)
           | None => if Ascii.eqb c ")" then Some "" else None
           end
  end.

(** [re.search] with that pattern: group 1 of the leftmost match, [None] when
    the pattern matches nowhere. *)
Fixpoint re_search_parens (s : string) : option string :=
  match s with
  | "" => None
  | String c s' =>
      if Ascii.eqb c "("
      then match re_group_to_last_close s' with
           | Some g => Some g
           | None => re_search_parens s'
           end
      else re_search_parens s'
  end.

Fixpoint has_char (c : ascii) (s : string) : bool :=
  match s with
  | "" => false
  | String d s' => Ascii.eqb c d || has_char c s'
  end.

(** [os.path.split(p)[1]] (POSIX): what follows the last slash. *)
Fixpoint path_tail (p : string) : string :=
  match p with
  | "" => ""
  | String c p' =>
      if has_char "/" p' then path_tail p'
      else if Ascii.eqb c "/" then p' else p
  end.

(** [s.rjust(width)] with blanks, as done by a [%3d] or [%02d] conversion. *)
Definition rjust (fill : ascii) (width : nat) (s : string) : string :=
  String.concat "" (replicate (width - String.length s)%nat (ch fill)) +:+ s.

(** [zip(xs, ys)] stops at the shorter argument. *)
Fixpoint zip {A B} (xs : list A) (ys : list B) : list (A * B) :=
  match xs, ys with
  | x :: xs', y :: ys' => (x, y) :: zip xs' ys'
  | _, _ => []
  end.

(** [s.lower()] on ASCII letters. *)
Definition lower_char (c : ascii) : ascii :=
  let n := nat_of_ascii c in
  if bool_decide (65 ≤ n ≤ 90)%nat then ascii_of_nat (n + 32) else c.

Fixpoint lower (s : string) : string :=
  match s with
  | "" => ""
  | String c s' => String (lower_char c) (lower s')
  end.

(** [d[key]] on a dictionary kept as an association list. *)
Fixpoint dict_get {V} (key : string) (d : list (string * V)) : option V :=
  match d with
  | [] => None
  | (k, v) :: d' => if bool_decide (k = key) then Some v else dict_get key d'
  end.

(** Largest index [j < hi] with [s[j] = "."]: [s.rfind(".", 0, hi)]. *)
Fixpoint rfind_dot (s : string) (hi : nat) : option nat :=
  match hi, s with
  | S h, String c s' =>
      match rfind_dot s' h with
      | Some j => Some (S j)
      | None => if Ascii.eqb c "." then Some O else None
      end
  | _, _ => None
  end.

End Py.

(** ** The colour table *)

Module Ansi.

Definition __ANSI_ESC : string := String Py.ESC "[".

Definition __ANSI_COLORS : list string :=
  ["black"; "red"; "green"; "yellow"; "blue"; "magenta"; "cyan"; "white"; "gray"].

Definition __ANSI_COLORS_ABBV : list string :=
  ["k"; "r"; "g"; "y"; "b"; "m"; "c"; "w"; "gy"].

(** One round of the loop [for i, c in enumerate(__ANSI_COLORS)]. *)
Definition add_color (C : gmap string string) (ic : nat * string)
  : gmap string string :=
  let '(i, c) := ic in
  let abbv := nth i __ANSI_COLORS_ABBV "" in
  let fg := __ANSI_ESC +:+ "3" +:+ pretty i +:+ ";1m" in
  let bg := __ANSI_ESC +:+ "4" +:+ pretty i +:+ ";1m" in
  <["bg_" +:+ abbv := bg]> (<["bg_" +:+ c := bg]> (<[abbv := fg]> (<[c := fg]> C))).

Definition table : gmap string string :=
  <["reset" := __ANSI_ESC +:+ "0m"]>
    (fold_left add_color (imap pair __ANSI_COLORS) ∅).

(** [C.key] for a key that is in the table. *)
Definition C (key : string) : string := default "" (table !! key).

End Ansi.

(** ** The [logging] package, as far as the module drives it *)

Module logging.

(** The standard severities. *)
Definition NOTSET : Z := 0.
Definition DEBUG : Z := 10.
Definition INFO : Z := 20.
Definition WARNING : Z := 30.
Definition ERROR : Z := 40.
Definition CRITICAL : Z := 50.

(** What a name of the [logging] module or of the logger class may be bound
    to: an integer, one of the two closures [__add_logging_level] installs
    ([logToRoot] on the module, [logForLevel] on the class, each remembering
    its [levelNum]), or some other object: neither an integer, nor a level
    name, nor one of these closures. *)
Inductive PyVal :=
| PInt (z : Z)
| PLogToRoot (levelNum : Z)
| PLogForLevel (levelNum : Z)
| PForeign.

Inductive Namespace := logging_module | logger_class.

#[global] Instance PyVal_eq_dec : EqDecision PyVal.
Proof. solve_decision. Defined.

(** The exceptions that can leave the module:
    - [ValueError_invalid_format]: the [raise ValueError] of [get_logger];
    - [AttributeError_already_defined]: the three [raise AttributeError] of
      [__add_logging_level], with the namespace the message names;
    - [AttributeError_no_attribute]: an attribute that is not there
      ([logging.ECHO], [log.echo], [group] on a failed search);
    - [TypeError_not_callable]: [log.echo] bound to something that is not
      the installed method;
    - [Error_bad_level]: [logging._checkLevel] on a value that is neither an
      integer nor a level name;
    - [TypeError_no_source_context]: [code_context] is [None], or there is
      no caller frame;
    - [IndexError_no_source_line]: [code_context] is an empty list. *)
Inductive Exn :=
| ValueError_invalid_format (fmt : string)
| AttributeError_already_defined (name : string) (place : Namespace)
| AttributeError_no_attribute (name : string)
| TypeError_not_callable (name : string)
| Error_bad_level
| TypeError_no_source_context
| IndexError_no_source_line.

(** Time of day at which a record is created. *)
Record Time := { hour : nat; minute : nat; second : nat; msecs : nat }.

Record LogRecord :=
  { levelno : Z; levelname : string; message : string; created : Time }.

(** A [__CustomFormatter] instance: the two attributes set by its
    constructor.  [fmt_ident] stands for the identity of the object. *)
Record Formatter :=
  { fmt_ident : nat; fmt_str : string; FORMATS : gmap Z string }.

(** A stream handler on [sys.stderr]; [h_formatter = None] is a handler on
    which [setFormatter] was never called. *)
Record Handler :=
  { h_ident : nat; h_level : Z; h_formatter : option Formatter }.

Record Logger :=
  { handlers : list Handler; level : Z; propagate : bool }.

(** What [Logger(name)] builds. *)
Definition new_Logger : Logger :=
  {| handlers := []; level := NOTSET; propagate := true |}.

Inductive LoggerRef := Root | Named (name : string).

(** The process-wide state: the attributes of the [logging] module and of
    the logger class, [_levelToName], the root logger and the manager's
    [loggerDict], the counter from which object identities are drawn, and what
    has been written to the two console streams, one entry per write. *)
Record State := {
  module_ns : gmap string PyVal;
  class_ns : gmap string PyVal;
  _levelToName : gmap Z string;
  root : Logger;
  loggerDict : gmap string Logger;
  next_ident : nat;
  stdout : list string;
  stderr : list string;
}.

Definition set_module_ns (f : gmap string PyVal → gmap string PyVal) (st : State) :=
  {| module_ns := f (module_ns st); class_ns := class_ns st;
     _levelToName := _levelToName st; root := root st;
     loggerDict := loggerDict st; next_ident := next_ident st;
     stdout := stdout st; stderr := stderr st |}.

Definition set_class_ns (f : gmap string PyVal → gmap string PyVal) (st : State) :=
  {| module_ns := module_ns st; class_ns := f (class_ns st);
     _levelToName := _levelToName st; root := root st;
     loggerDict := loggerDict st; next_ident := next_ident st;
     stdout := stdout st; stderr := stderr st |}.

Definition set_levelToName (f : gmap Z string → gmap Z string) (st : State) :=
  {| module_ns := module_ns st; class_ns := class_ns st;
     _levelToName := f (_levelToName st); root := root st;
     loggerDict := loggerDict st; next_ident := next_ident st;
     stdout := stdout st; stderr := stderr st |}.

Definition set_root (f : Logger → Logger) (st : State) :=
  {| module_ns := module_ns st; class_ns := class_ns st;
     _levelToName := _levelToName st; root := f (root st);
     loggerDict := loggerDict st; next_ident := next_ident st;
     stdout := stdout st; stderr := stderr st |}.

Definition set_loggerDict (f : gmap string Logger → gmap string Logger) (st : State) :=
  {| module_ns := module_ns st; class_ns := class_ns st;
     _levelToName := _levelToName st; root := root st;
     loggerDict := f (loggerDict st); next_ident := next_ident st;
     stdout := stdout st; stderr := stderr st |}.

Definition set_next_ident (f : nat → nat) (st : State) :=
  {| module_ns := module_ns st; class_ns := class_ns st;
     _levelToName := _levelToName st; root := root st;
     loggerDict := loggerDict st; next_ident := f (next_ident st);
     stdout := stdout st; stderr := stderr st |}.

Definition set_stdout (f : list string → list string) (st : State) :=
  {| module_ns := module_ns st; class_ns := class_ns st;
     _levelToName := _levelToName st; root := root st;
     loggerDict := loggerDict st; next_ident := next_ident st;
     stdout := f (stdout st); stderr := stderr st |}.

Definition set_stderr (f : list string → list string) (st : State) :=
  {| module_ns := module_ns st; class_ns := class_ns st;
     _levelToName := _levelToName st; root := root st;
     loggerDict := loggerDict st; next_ident := next_ident st;
     stdout := stdout st; stderr := f (stderr st) |}.

(** *** Computations that may raise *)

Inductive Outcome (A : Type) :=
| Returned (a : A)
| Raised (e : Exn).
Arguments Returned {A} a.
Arguments Raised {A} e.

Definition M (A : Type) : Type := State → Outcome A * State.

Definition ret {A} (a : A) : M A := λ st, (Returned a, st).

Definition bind {A B} (m : M A) (k : A → M B) : M B :=
  λ st, match m st with
        | (Returned a, st') => k a st'
        | (Raised e, st') => (Raised e, st')
        end.

Definition raise {A} (e : Exn) : M A := λ st, (Raised e, st).
Definition get : M State := λ st, (Returned st, st).
Definition modify (f : State → State) : M unit := λ st, (Returned tt, f st).

(** *** The module namespace and the level-name table *)

Definition namespace (ns : Namespace) (st : State) : gmap string PyVal :=
  match ns with
  | logging_module => module_ns st
  | logger_class => class_ns st
  end.

(** [hasattr(logging, name)] and [hasattr(logging.getLoggerClass(), name)] *)
Definition hasattr (ns : Namespace) (name : string) (st : State) : bool :=
  bool_decide (is_Some (namespace ns st !! name)).

(** [getattr]: reading an attribute that is not there raises. *)
Definition getattr (ns : Namespace) (name : string) : M PyVal :=
  λ st, match namespace ns st !! name with
        | Some v => (Returned v, st)
        | None => (Raised (AttributeError_no_attribute name), st)
        end.

Definition setattr (ns : Namespace) (name : string) (v : PyVal) : State → State :=
  match ns with
  | logging_module => set_module_ns <[name := v]>
  | logger_class => set_class_ns <[name := v]>
  end.

(** [logging.getLevelName(level)] for an integer: the table entry, else the
    text [Level n]. *)
Definition getLevelName (level : Z) (st : State) : string :=
  match _levelToName st !! level with
  | Some name => name
  | None => "Level " +:+ pretty level
  end.

(** [logging.addLevelName(level, levelName)], on [_levelToName]. *)
Definition addLevelName (level : Z) (levelName : string) : State → State :=
  set_levelToName <[level := levelName]>.

(** [logging._checkLevel(level)] *)
Definition _checkLevel (level : PyVal) : M Z :=
  match level with
  | PInt z => ret z
  | _ => raise Error_bad_level
  end.

(** *** The logger tree *)

Definition logger_at (st : State) (r : LoggerRef) : Logger :=
  match r with
  | Root => root st
  | Named n => default new_Logger (loggerDict st !! n)
  end.

Definition update_logger (r : LoggerRef) (f : Logger → Logger) : State → State :=
  match r with
  | Root => set_root f
  | Named n => set_loggerDict (alter f n)
  end.

(** [logging.getLogger(name)]: no name, the empty name and (since Python
    3.9) the root's own name all give the root logger; another name gives the
    logger registered under it, created on first use. *)
Definition getLogger (name : option string) : M LoggerRef :=
  λ st,
    match name with
    | None => (Returned Root, st)
    | Some n =>
        if bool_decide (n = "" ∨ n = "root") then (Returned Root, st)
        else match loggerDict st !! n with
             | Some _ => (Returned (Named n), st)
             | None => (Returned (Named n), set_loggerDict <[n := new_Logger]> st)
             end
    end.

(** The prefixes [Manager._fixupParents] tries for a name, nearest first:
    it cuts at the last dot, then looks for the next dot strictly before the
    character that precedes the cut, and stops at a cut in first position. *)
Fixpoint dotted_prefixes_from (fuel : nat) (name : string) (i : option nat)
  : list string :=
  match fuel, i with
  | S fuel', Some (S k) =>
      String.substring 0 (S k) name
        :: dotted_prefixes_from fuel' name (Py.rfind_dot name k)
  | _, _ => []
  end.

Definition dotted_prefixes (name : string) : list string :=
  dotted_prefixes_from (String.length name) name
    (Py.rfind_dot name (String.length name)).

(** [logger.parent]: the nearest of these prefixes that names a logger, or
    the root.  The manager keeps the [parent] pointers in this shape whenever
    a logger is created. *)
Definition parent (st : State) (name : string) : LoggerRef :=
  match filter (λ p, is_Some (loggerDict st !! p)) (dotted_prefixes name) with
  | p :: _ => Named p
  | [] => Root
  end.

(** A logger followed by its ancestors, up to the root. *)
Fixpoint lineage_from (fuel : nat) (st : State) (r : LoggerRef) : list LoggerRef :=
  match r, fuel with
  | Named n, S fuel' => Named n :: lineage_from fuel' st (parent st n)
  | _, _ => [r]
  end.

Definition lineage (st : State) (r : LoggerRef) : list LoggerRef :=
  match r with
  | Root => [Root]
  | Named n => lineage_from (S (String.length n)) st r
  end.

(** The loop of [Logger.hasHandlers] over that chain. *)
Fixpoint hasHandlers_along (st : State) (chain : list LoggerRef) : bool :=
  match chain with
  | [] => false
  | c :: rest =>
      match handlers (logger_at st c) with
      | _ :: _ => true
      | [] => if propagate (logger_at st c) then hasHandlers_along st rest else false
      end
  end.

Definition hasHandlers (st : State) (r : LoggerRef) : bool :=
  hasHandlers_along st (lineage st r).

(** The loop of [Logger.getEffectiveLevel]. *)
Fixpoint getEffectiveLevel_along (st : State) (chain : list LoggerRef) : Z :=
  match chain with
  | [] => NOTSET
  | c :: rest =>
      if bool_decide (level (logger_at st c) = 0)
      then getEffectiveLevel_along st rest
      else level (logger_at st c)
  end.

Definition getEffectiveLevel (st : State) (r : LoggerRef) : Z :=
  getEffectiveLevel_along st (lineage st r).

(** [Logger.isEnabledFor(level)], [logging.disable] never having been
    called ([manager.disable] is 0) and no logger being disabled. *)
Definition isEnabledFor (st : State) (r : LoggerRef) (lvl : Z) : bool :=
  if bool_decide (lvl ≤ 0)%Z then false
  else bool_decide (getEffectiveLevel st r ≤ lvl)%Z.

(** *** %-style formatting of a record *)

Inductive FieldVal := FStr (s : string) | FInt (z : Z).

(** [time.strftime("%H:%M:%S", ...)] *)
Definition two_digits (n : nat) : string := Py.rjust "0" 2 (pretty n).

Definition formatTime (t : Time) : string :=
  two_digits (hour t) +:+ ":" +:+ two_digits (minute t) +:+ ":"
    +:+ two_digits (second t).

(** The entries of [record.__dict__] a template of this module can name. *)
Definition record_field (r : LogRecord) (key : string) : option FieldVal :=
  if bool_decide (key = "asctime") then Some (FStr (formatTime (created r)))
  else if bool_decide (key = "msecs") then Some (FInt (Z.of_nat (msecs (created r))))
  else if bool_decide (key = "levelname") then Some (FStr (levelname r))
  else if bool_decide (key = "levelno") then Some (FInt (levelno r))
  else if bool_decide (key = "message") then Some (FStr (message r))
  else None.

(** Where the scan of a template stands: in literal text, just after a
    percent sign, inside the parenthesised key (read so far, last character
    first), or after the key, reading the width. *)
Inductive Scan :=
| in_text
| after_percent
| in_key (key : string)
| in_width (key : string) (width : nat).

Definition digit_of (c : ascii) : option nat :=
  let n := nat_of_ascii c in
  if bool_decide (48 ≤ n ≤ 57)%nat then Some (n - 48)%nat else None.

Definition convert (conv : ascii) (width : nat) (v : FieldVal) : option string :=
  if Ascii.eqb conv "s" then
    Some (Py.rjust " " width match v with FStr s => s | FInt z => pretty z end)
  else if Ascii.eqb conv "d" then
    match v with
    | FInt z => Some (Py.rjust " " width (pretty z))
    | FStr _ => None
    end
  else None.

(** [template % record.__dict__] for mapping keys with an optional width and
    the conversions [s] and [d]; [None] where Python raises. *)
Fixpoint percent_format (r : LogRecord) (scan : Scan) (template : string)
  : option string :=
  match template with
  | "" => match scan with in_text => Some "" | _ => None end
  | String c rest =>
      match scan with
      | in_text =>
          if Ascii.eqb c "%" then percent_format r after_percent rest
          else String c <$> percent_format r in_text rest
      | after_percent =>
          if Ascii.eqb c "(" then percent_format r (in_key "") rest
          else if Ascii.eqb c "%" then String c <$> percent_format r in_text rest
          else None
      | in_key key =>
          if Ascii.eqb c ")" then percent_format r (in_width (String.rev key) 0) rest
          else percent_format r (in_key (String c key)) rest
      | in_width key width =>
          match digit_of c with
          | Some d => percent_format r (in_width key (10 * width + d)) rest
          | None =>
              match record_field r key with
              | Some v =>
                  match convert c width v, percent_format r in_text rest with
                  | Some piece, Some tail => Some (piece +:+ tail)
                  | _, _ => None
                  end
              | None => None
              end
          end
      end
  end.

(** [logging.Formatter(fmt, datefmt).format(record)] for a record without
    exception information; [fmt = None] selects the package default.  The
    constructor also checks that the template holds a conversion, which
    every template built by this module does. *)
Definition Formatter_format (fmt : option string) (r : LogRecord) : option string :=
  percent_format r in_text (default "%(message)s" fmt).

End logging.

Declare Scope py_scope.
Delimit Scope py_scope with py.
Notation "'do' x <- m ; k" := (logging.bind m (λ x, k))
  (at level 10, x name, m at level 100, k at level 200) : py_scope.
Notation "'exec' m ; k" := (logging.bind m (λ _, k))
  (at level 10, m at level 100, k at level 200) : py_scope.

Local Open Scope py_scope.

(** ** [echolog.py] *)

Definition ECHO_LEVEL : Z := logging.DEBUG + 5.

(** *** [class __CustomFormatter] *)

(** The dictionary display of [__init__].  Its third key is whatever
    [logging.ECHO] is bound to; a later entry replaces an earlier one with the
    same key, and a key that is not an integer is never looked up. *)
Definition FORMATS_of (fmt_str : string) (echo_value : logging.PyVal)
  : gmap Z string :=
  let entry color :=
    Ansi.C color +:+ fmt_str +:+ Ansi.C "reset" +:+ " %(message)s" in
  let with_echo (d : gmap Z string) :=
    match echo_value with
    | logging.PInt z => <[z := entry "m"]> d
    | _ => d
    end in
  <[logging.NOTSET := entry "gy"]>
    (<[logging.CRITICAL := entry "bg_r"]>
      (<[logging.ERROR := entry "r"]>
        (<[logging.WARNING := entry "y"]>
          (with_echo
            (<[logging.INFO := entry "g"]>
              (<[logging.DEBUG := entry "b"]> ∅)))))).

(** The identity given to an object that is being created. *)
Definition fresh_ident : logging.M nat :=
  λ st, (logging.Returned (logging.next_ident st), logging.set_next_ident S st).

(** [__CustomFormatter(fmt_str)] *)
Definition __CustomFormatter (fmt_str : string) : logging.M logging.Formatter :=
  do echo_value <- logging.getattr logging.logging_module "ECHO";
  do i <- fresh_ident;
  logging.ret {| logging.fmt_ident := i; logging.fmt_str := fmt_str;
                 logging.FORMATS := FORMATS_of fmt_str echo_value |}.

(** [__CustomFormatter.format(self, record)] *)
Definition __CustomFormatter_format (self : logging.Formatter)
    (record : logging.LogRecord) : option string :=
  let log_fmt := logging.FORMATS self !! logging.levelno record in
  logging.Formatter_format log_fmt record.

(** *** Dispatch of a record, as [logging] does it

    These are methods of [logging.Handler] and [logging.Logger]; they come
    after the formatter because a handler calls the [format] of the formatter
    bound to it. *)

Module Logger.

Import logging.

(** [Handler.format(record)]: the bound formatter, or the package default. *)
Definition Handler_format (h : Handler) (record : LogRecord) : option string :=
  match h_formatter h with
  | Some f => __CustomFormatter_format f record
  | None => Formatter_format None record
  end.

(** [StreamHandler.emit(record)]: one write of the rendered line and the
    terminator.  A record whose rendering raises writes no line. *)
Definition emit (h : Handler) (record : LogRecord) : State → State :=
  match Handler_format h record with
  | Some msg => set_stderr (λ out, (out ++ [msg +:+ Py.ch Py.LF])%list)
  | None => id
  end.

(** [for hdlr in c.handlers: if record.levelno >= hdlr.level: hdlr.handle(record)] *)
Definition handle_all (hs : list Handler) (record : LogRecord) (st : State) : State :=
  fold_left
    (λ st h, if bool_decide (h_level h ≤ levelno record)%Z then emit h record st else st)
    hs st.

(** The loop of [Logger.callHandlers]; the first component counts the
    handlers met. *)
Fixpoint callHandlers_along (chain : list LoggerRef) (record : LogRecord)
    (st : State) : nat * State :=
  match chain with
  | [] => (O, st)
  | c :: rest =>
      let hs := handlers (logger_at st c) in
      let st1 := handle_all hs record st in
      if propagate (logger_at st c)
      then let '(found, st2) := callHandlers_along rest record st1 in
           (length hs + found, st2)%nat
      else (length hs, st1)
  end.

(** [logging.lastResort]: a handler at [WARNING] without a formatter. *)
Definition lastResort : Handler :=
  {| h_ident := O; h_level := WARNING; h_formatter := None |}.

Definition callHandlers (self : LoggerRef) (record : LogRecord) (st : State) : State :=
  let '(found, st1) := callHandlers_along (lineage st self) record st in
  match found with
  | O => if bool_decide (h_level lastResort ≤ levelno record)%Z
         then emit lastResort record st1 else st1
  | S _ => st1
  end.

(** [Logger._log(level, msg, ())]: build the record, then hand it over. *)
Definition _log (self : LoggerRef) (lvl : Z) (msg : string) (now : Time)
  : State → State :=
  λ st,
    let record := {| levelno := lvl; levelname := getLevelName lvl st;
                     message := msg; created := now |} in
    callHandlers self record st.

(** The closure [logForLevel] of [__add_logging_level]. *)
Definition logForLevel (levelNum : Z) (self : LoggerRef) (msg : string)
    (now : Time) : State → State :=
  λ st, if isEnabledFor st self levelNum then _log self levelNum msg now st else st.

(** [log.echo(msg)]: look the method up on the class, then call it. *)
Definition echo (self : LoggerRef) (msg : string) (now : Time) : M unit :=
  λ st,
    match class_ns st !! "echo" with
    | Some (PLogForLevel levelNum) =>
        (Returned tt, logForLevel levelNum self msg now st)
    | Some _ => (Raised (TypeError_not_callable "echo"), st)
    | None => (Raised (AttributeError_no_attribute "echo"), st)
    end.

Definition set_handlers (hs : list Handler) (l : Logger) : Logger :=
  {| handlers := hs; level := level l; propagate := propagate l |}.

Definition set_level (z : Z) (l : Logger) : Logger :=
  {| handlers := handlers l; level := z; propagate := propagate l |}.

(** [logger.setLevel(level)] *)
Definition setLevel (self : LoggerRef) (lvl : PyVal) : M unit :=
  do z <- _checkLevel lvl;
  modify (update_logger self (set_level z)).

(** [logger.addHandler(hdlr)]: appended unless it is already there. *)
Definition addHandler (self : LoggerRef) (hdlr : Handler) : M unit :=
  modify (update_logger self (λ l,
    if existsb (λ h, Nat.eqb (h_ident h) (h_ident hdlr)) (handlers l) then l
    else set_handlers (handlers l ++ [hdlr])%list l)).

(** [logging.StreamHandler()] *)
Definition StreamHandler : M Handler :=
  do i <- fresh_ident;
  ret {| h_ident := i; h_level := NOTSET; h_formatter := None |}.

(** [ch.setLevel(level)] and [ch.setFormatter(formatter)], on a handler that
    is not attached yet. *)
Definition Handler_setLevel (ch : Handler) (lvl : PyVal) : M Handler :=
  do z <- _checkLevel lvl;
  ret {| h_ident := h_ident ch; h_level := z; h_formatter := h_formatter ch |}.

Definition Handler_setFormatter (ch : Handler) (f : Formatter) : Handler :=
  {| h_ident := h_ident ch; h_level := h_level ch; h_formatter := Some f |}.

End Logger.

(** *** Registration of the custom level *)

(** [__add_logging_level(levelName, levelNum, methodName=None)] *)
Definition __add_logging_level (levelName : string) (levelNum : Z)
    (methodName : option string) : logging.M unit :=
  let methodName :=
    match methodName with
    | Some (String c m) => String c m
    | _ => Py.lower levelName
    end in
  do st <- logging.get;
  if logging.hasattr logging.logging_module levelName st then
    logging.raise (logging.AttributeError_already_defined levelName logging.logging_module)
  else if logging.hasattr logging.logging_module methodName st then
    logging.raise (logging.AttributeError_already_defined methodName logging.logging_module)
  else if logging.hasattr logging.logger_class methodName st then
    logging.raise (logging.AttributeError_already_defined methodName logging.logger_class)
  else
    exec logging.modify (logging.addLevelName levelNum levelName);
    exec logging.modify (logging.setattr logging.logging_module levelName (logging.PInt levelNum));
    exec logging.modify (logging.setattr logging.logger_class methodName (logging.PLogForLevel levelNum));
    logging.modify (logging.setattr logging.logging_module methodName (logging.PLogToRoot levelNum)).

(** [__get_echo_level()] *)
Definition __get_echo_level : logging.M logging.PyVal :=
  do st <- logging.get;
  exec (if negb (logging.hasattr logging.logging_module "ECHO" st)
        then __add_logging_level "ECHO" ECHO_LEVEL None
        else logging.ret tt);
  logging.getattr logging.logging_module "ECHO".

(** *** Renaming the levels *)

(** The inner loop of [__rename_logging_level_names]: the tag of the last
    key of [vals] whose value is [level].  Every key of [vals] is a key of
    [tags]. *)
Definition tag_for (tags : list (string * string))
    (vals : list (string * logging.PyVal)) (level : Z) : option string :=
  fold_left
    (λ name kv, if bool_decide (kv.2 = logging.PInt level)
                then Py.dict_get kv.1 tags else name)
    vals None.

(** [__rename_logging_level_names(tags, vals)]: every level of
    [_levelToName] is given its tag, or keeps the name it has.  A round of the
    outer loop reads and writes the entry of its own level only. *)
Definition __rename_logging_level_names (tags : list (string * string))
    (vals : list (string * logging.PyVal)) : logging.State → logging.State :=
  λ st,
    logging.set_levelToName
      (map_imap (λ level _,
         Some (match tag_for tags vals level with
               | Some name => name
               | None => logging.getLevelName level st
               end)))
      st.

(** *** [get_logger] *)

(** [tags.short], [tags.long] and [values], in the order of the assignments. *)
Definition tags_short : list (string * string) :=
  [("DEBUG", "/"); ("INFO", "-"); ("ECHO", ">"); ("WARNING", "!");
   ("ERROR", "x"); ("CRITICAL", "X"); ("NOTSET", "?")].

Definition tags_long : list (string * string) :=
  [("DEBUG", "DEBUG"); ("INFO", "INFO"); ("ECHO", "ECHO"); ("WARNING", "WARN");
   ("ERROR", "ERROR"); ("CRITICAL", "FATAL"); ("NOTSET", "UNSET")].

Definition values (echo_value : logging.PyVal) : list (string * logging.PyVal) :=
  [("DEBUG", logging.PInt logging.DEBUG); ("INFO", logging.PInt logging.INFO);
   ("ECHO", echo_value); ("WARNING", logging.PInt logging.WARNING);
   ("ERROR", logging.PInt logging.ERROR);
   ("CRITICAL", logging.PInt logging.CRITICAL);
   ("NOTSET", logging.PInt logging.NOTSET)].

(** One round of the loop over [tags.long.items()] when [fmt == 'long']:
    the bracket is put in front, then a blank if the tag has four characters. *)
Definition pad_long (tag : string) : string :=
  let bracketed := "[" +:+ tag in
  if Nat.eqb (String.length tag) 4 then " " +:+ bracketed else bracketed.

(** The same round when [fmt == 'long-time']. *)
Definition pad_long_time (tag : string) : string :=
  if Nat.eqb (String.length tag) 4 then " " +:+ tag else tag.

Definition is_in (x : string) (xs : list string) : bool :=
  bool_decide (x ∈ xs).

(** The chain [if fmt in [...] ... elif ... else raise]: renames the levels
    and yields [fmt_str]. *)
Definition set_up_format (fmt : string) (vals : list (string * logging.PyVal))
  : logging.M string :=
  if is_in fmt ["short"; "short-time"] then
    exec logging.modify (__rename_logging_level_names tags_short vals);
    logging.ret (if bool_decide (fmt = "short") then "[%(levelname)s]"
                 else "%(asctime)s.%(msecs)3d [%(levelname)s]")
  else if is_in fmt ["long"; "long-time"] then
    let '(fmt_str, tags) :=
      if bool_decide (fmt = "long")
      then ("%(levelname)s]", prod_map id pad_long <$> tags_long)
      else ("[%(asctime)s.%(msecs)3d %(levelname)s]",
            prod_map id pad_long_time <$> tags_long) in
    exec logging.modify (__rename_logging_level_names tags vals);
    logging.ret fmt_str
  else
    logging.raise (logging.ValueError_invalid_format fmt).

(** The [else] branch of [get_logger]: the logger is set up from scratch. *)
Definition configure (logger : logging.LoggerRef) (level : option Z)
    (fmt : option string) : logging.M logging.LoggerRef :=
  exec __get_echo_level;
  do level <- match level with
              | None => logging.getattr logging.logging_module "ECHO"
              | Some z => logging.ret (logging.PInt z)
              end;
  let fmt := default "short-time" fmt in
  do echo_value <- logging.getattr logging.logging_module "ECHO";
  do fmt_str <- set_up_format fmt (values echo_value);
  do formatter <- __CustomFormatter fmt_str;
  do ch <- Logger.StreamHandler;
  do ch <- Logger.Handler_setLevel ch level;
  let ch := Logger.Handler_setFormatter ch formatter in
  exec Logger.setLevel logger level;
  exec Logger.addHandler logger ch;
  logging.ret logger.

(** [get_logger(level=None, fmt=None, id=None)].  Flushing a handler changes
    nothing here, a write being on the stream as soon as it is made. *)
Definition get_logger (level : option Z) (fmt : option string)
    (id : option string) : logging.M logging.LoggerRef :=
  do logger <- logging.getLogger id;
  exec (if bool_decide (level ≠ None) || bool_decide (fmt ≠ None)
        then logging.modify (logging.update_logger logger (Logger.set_handlers []))
        else logging.ret tt);
  do st <- logging.get;
  if logging.hasHandlers st logger then logging.ret logger
  else configure logger level fmt.

(** *** [newline] *)

(** [print(text)] *)
Definition print (text : string) : logging.M unit :=
  logging.modify (logging.set_stdout (λ out, (out ++ [text +:+ Py.ch Py.LF])%list)).

(** [newline(n=1)] *)
Definition newline (n : Z) : logging.M unit :=
  do log <- get_logger None None None;
  do st <- logging.get;
  if bool_decide (logging.level (logging.logger_at st log) ≤ logging.INFO)%Z
  then print (Py.join "" (replicate (Z.to_nat (n - 1)) (Py.ch Py.LF)))
  else logging.ret tt.

(** *** [echo] *)

(** What [inspect.getframeinfo] tells about the caller. *)
Record FrameInfo :=
  { filename : string; lineno : Z; code_context : option (list string) }.

Section Echo.

(** The values passed to [echo], and their rendering in an f-string. *)
Context {Value : Type} (format_value : Value → string).

(** The loop over [kwargs.items()]: every key joins the names, every value
    the positional arguments. *)
Definition append_kwargs (kwargs : list (string * Value))
    (vnames : list string) (args : list Value) : list string * list Value :=
  fold_left (λ acc kv, ((acc.1 ++ [kv.1])%list, (acc.2 ++ [kv.2])%list))
    kwargs (vnames, args).

(** From the text between the parentheses to the pairs the last loop of
    [echo] runs over. *)
Definition echo_pairs (r : string) (args : list Value)
    (kwargs : list (string * Value)) : list (string * Value) :=
  let vnames := Py.split ", " r in
  let n_kw := length kwargs in
  let '(vnames, args) :=
    if bool_decide (0 < n_kw)%nat
    then append_kwargs kwargs (take (n_kw + 1) vnames) args
    else (vnames, args) in
  Py.zip vnames args.

Definition echo_message (fmtstr var : string) (val : Value) : string :=
  fmtstr +:+ " " +:+ Py.ch Py.TAB +:+ " " +:+ Ansi.C "c" +:+ var
    +:+ Ansi.C "reset" +:+ " => " +:+ Ansi.C "g" +:+ format_value val
    +:+ Ansi.C "reset".

Fixpoint echo_each (log : logging.LoggerRef) (fmtstr : string)
    (pairs : list (string * Value)) (now : logging.Time) : logging.M unit :=
  match pairs with
  | [] => logging.ret tt
  | (var, val) :: rest =>
      exec Logger.echo log (echo_message fmtstr var val) now;
      echo_each log fmtstr rest now
  end.

(** [echo] with positional [args] and keyword [kwargs], called from
    [caller] at time [now]. *)
Definition echo (args : list Value) (kwargs : list (string * Value))
    (caller : option FrameInfo) (now : logging.Time) : logging.M unit :=
  do log <- get_logger None None None;
  match caller with
  | None => logging.raise logging.TypeError_no_source_context
  | Some frameinfo =>
      match code_context frameinfo with
      | None => logging.raise logging.TypeError_no_source_context
      | Some [] => logging.raise logging.IndexError_no_source_line
      | Some (line :: _) =>
          let fname := Py.path_tail (filename frameinfo) in
          let fmtstr := fname +:+ " @ line " +:+ Ansi.C "y"
                          +:+ pretty (lineno frameinfo) +:+ Ansi.C "reset" +:+ ":" in
          match Py.re_search_parens line with
          | None => logging.raise (logging.AttributeError_no_attribute "group")
          | Some r => echo_each log fmtstr (echo_pairs r args kwargs) now
          end
      end
  end.

End Echo.

(** ** A process that has just imported [logging] *)

Definition fresh : logging.State :=
  {| logging.module_ns :=
       list_to_map
         [("NOTSET", logging.PInt logging.NOTSET); ("DEBUG", logging.PInt logging.DEBUG);
          ("INFO", logging.PInt logging.INFO); ("WARNING", logging.PInt logging.WARNING);
          ("ERROR", logging.PInt logging.ERROR);
          ("CRITICAL", logging.PInt logging.CRITICAL);
          ("debug", logging.PForeign); ("info", logging.PForeign);
          ("warning", logging.PForeign); ("error", logging.PForeign);
          ("critical", logging.PForeign); ("log", logging.PForeign)];
     logging.class_ns :=
       list_to_map
         [("debug", logging.PForeign); ("info", logging.PForeign);
          ("warning", logging.PForeign); ("error", logging.PForeign);
          ("critical", logging.PForeign); ("log", logging.PForeign)];
     logging._levelToName :=
       list_to_map
         [(logging.CRITICAL, "CRITICAL"); (logging.ERROR, "ERROR");
          (logging.WARNING, "WARNING"); (logging.INFO, "INFO");
          (logging.DEBUG, "DEBUG"); (logging.NOTSET, "NOTSET")];
     logging.root :=
       {| logging.handlers := []; logging.level := logging.WARNING;
          logging.propagate := true |};
     logging.loggerDict := ∅;
     logging.next_ident := 1;
     logging.stdout := [];
     logging.stderr := [] |}.

(** *** [__curr_time_str] *)

(** [__curr_time_str()], the clock reading being [now]. *)
Definition __curr_time_str (now : logging.Time) : string :=
  logging.formatTime now.

(** * Vocabulary of the statements *)

Local Open Scope Z_scope.

(** Nothing is bound yet under the level name or the method name. *)
Definition unregistered (st : logging.State) : Prop :=
  logging.module_ns st !! "ECHO" = None ∧
  logging.module_ns st !! "echo" = None ∧
  logging.class_ns st !! "echo" = None.

(** The four assignments that end [__add_logging_level('ECHO', ECHO_LEVEL)]. *)
Definition register (st : logging.State) : logging.State :=
  logging.setattr logging.logging_module "echo" (logging.PLogToRoot ECHO_LEVEL)
    (logging.setattr logging.logger_class "echo" (logging.PLogForLevel ECHO_LEVEL)
      (logging.setattr logging.logging_module "ECHO" (logging.PInt ECHO_LEVEL)
        (logging.addLevelName ECHO_LEVEL "ECHO" st))).

(** Registration goes through: the level name is bound already, by whoever,
    or nothing stands in the way. *)
Definition no_conflict (st : logging.State) : Prop :=
  is_Some (logging.module_ns st !! "ECHO") ∨ unregistered st.

(** The state [__get_echo_level] leaves behind when it returns. *)
Definition after_registration (st : logging.State) : logging.State :=
  match logging.module_ns st !! "ECHO" with
  | Some _ => st
  | None => register st
  end.

(** The logger [logging.getLogger(id)] answers with. *)
Definition ref_of (id : option string) : logging.LoggerRef :=
  match id with
  | None => logging.Root
  | Some n => if bool_decide (n = "" ∨ n = "root") then logging.Root
              else logging.Named n
  end.

(** The state in which [get_logger] asks [logger.hasHandlers()]: the logger
    looked up, its handlers dropped if an argument was passed. *)
Definition at_the_test (level : option Z) (fmt : option string)
    (id : option string) (st : logging.State) : logging.State :=
  let st0 := (logging.getLogger id st).2 in
  if bool_decide (level ≠ None) || bool_decide (fmt ≠ None)
  then logging.update_logger (ref_of id) (Logger.set_handlers []) st0
  else st0.

Definition recognized (fmt : string) : Prop :=
  fmt ∈ ["short"; "short-time"; "long"; "long-time"].

(** The method name is bound at [place], and at no place asked before it. *)
Definition method_taken (st : logging.State) (place : logging.Namespace) : Prop :=
  match place with
  | logging.logging_module => is_Some (logging.module_ns st !! "echo")
  | logging.logger_class =>
      logging.module_ns st !! "echo" = None ∧ is_Some (logging.class_ns st !! "echo")
  end.

(** ** Some process states *)

(** The root logger as a first [get_logger()] leaves it. *)
Definition configured_root : logging.State := (get_logger None None None fresh).2.

(** Somebody else has bound [logging.ECHO]. *)
Definition foreign_level : logging.State :=
  logging.setattr logging.logging_module "ECHO" (logging.PInt 99) fresh.

(** Somebody else has given the logger class an [echo] method. *)
Definition foreign_method : logging.State :=
  logging.setattr logging.logger_class "echo" logging.PForeign fresh.

(** The two results of the format chain of [get_logger], for a recognized
    format: the template of the prefix and the tags given to the levels. *)
Definition fmt_str_of (fmt : string) : string :=
  if bool_decide (fmt = "short") then "[%(levelname)s]"
  else if bool_decide (fmt = "short-time") then "%(asctime)s.%(msecs)3d [%(levelname)s]"
  else if bool_decide (fmt = "long") then "%(levelname)s]"
  else "[%(asctime)s.%(msecs)3d %(levelname)s]".

Definition tags_of (fmt : string) : list (string * string) :=
  if bool_decide (fmt = "short") || bool_decide (fmt = "short-time") then tags_short
  else if bool_decide (fmt = "long") then prod_map id pad_long <$> tags_long
  else prod_map id pad_long_time <$> tags_long.

(** The formatter and the handler [get_logger] builds in state [st], for
    the threshold [z] and [logging.ECHO] bound to [v]. *)
Definition formatter_built (fmt : string) (v : logging.PyVal) (st : logging.State)
  : logging.Formatter :=
  {| logging.fmt_ident := logging.next_ident st;
     logging.fmt_str := fmt_str_of fmt;
     logging.FORMATS := FORMATS_of (fmt_str_of fmt) v |}.

Definition handler_built (z : Z) (fmt : string) (v : logging.PyVal)
    (st : logging.State) : logging.Handler :=
  {| logging.h_ident := S (logging.next_ident st);
     logging.h_level := z;
     logging.h_formatter := Some (formatter_built fmt v st) |}.

(** The state a successful configuration ends in, from the state [st] in
    which the level is registered. *)
Definition set_up (logger : logging.LoggerRef) (z : Z) (fmt : string)
    (v : logging.PyVal) (st : logging.State) : logging.State :=
  let st2 := __rename_logging_level_names (tags_of fmt) (values v) st in
  logging.update_logger logger
    (λ l, Logger.set_handlers (logging.handlers l ++ [handler_built z fmt v st]) l)
    (logging.update_logger logger (Logger.set_level z)
       (logging.set_next_ident S (logging.set_next_ident S st2))).

(** The logger is there: the root always is, a named one once created. *)
Definition exists_in (st : logging.State) (r : logging.LoggerRef) : Prop :=
  match r with
  | logging.Root => True
  | logging.Named n => is_Some (logging.loggerDict st !! n)
  end.

(** The level registry is as this module expects to find it: untouched, or
    with [logging.ECHO] bound to an integer. *)
Definition ready (st : logging.State) : Prop :=
  unregistered st ∨ ∃ z, logging.module_ns st !! "ECHO" = Some (logging.PInt z).

(** The ancestors of the logger called [name], nearest first. *)
Definition ancestors (st : logging.State) (name : string) : list logging.LoggerRef :=
  logging.lineage_from (String.length name) st (logging.parent st name).


(** Names of loggers shorter than [N] characters; the root has no name. *)
Definition shorter_than (N : nat) (r : logging.LoggerRef) : Prop :=
  match r with
  | logging.Root => True
  | logging.Named q => (String.length q < N)%nat
  end.


(** A text made of [k] line feeds and nothing else: [k] blank lines. *)
Definition line_feeds (k : nat) : string :=
  Py.join "" (replicate k (Py.ch Py.LF)).

(** The number of line feeds in what was written. *)
Fixpoint count_line_feeds (text : string) : nat :=
  match text with
  | "" => O
  | String c rest =>
      ((if Ascii.eqb c Py.LF then 1 else 0) + count_line_feeds rest)%nat
  end.

(** The colour [__CustomFormatter] gives to a severity of the ladder, the
    custom level being registered as this module registers it. *)
Definition ladder_color (lv : Z) : option string :=
  if bool_decide (lv = logging.DEBUG) then Some (Ansi.C "b")
  else if bool_decide (lv = logging.INFO) then Some (Ansi.C "g")
  else if bool_decide (lv = ECHO_LEVEL) then Some (Ansi.C "m")
  else if bool_decide (lv = logging.WARNING) then Some (Ansi.C "y")
  else if bool_decide (lv = logging.ERROR) then Some (Ansi.C "r")
  else if bool_decide (lv = logging.CRITICAL) then Some (Ansi.C "bg_r")
  else if bool_decide (lv = logging.NOTSET) then Some (Ansi.C "gy")
  else None.

(** A record at a severity nobody has named. *)
Definition odd_record : logging.LogRecord :=
  {| logging.levelno := 25; logging.levelname := "Level 25";
     logging.message := "hello";
     logging.created := {| logging.hour := 9; logging.minute := 30;
                           logging.second := 0; logging.msecs := 125 |} |}.

(** The padding round of the loop over [tags.long.items()] for a format of
    the long family. *)
Definition pad_for (fmt : string) : string → string :=
  if bool_decide (fmt = "long") then pad_long else pad_long_time.

(** The prefix the template of a recognized format renders to, given the
    level name carried by the record. *)
Definition rendered_prefix (fmt : string) (r : logging.LogRecord) : string :=
  let time := logging.formatTime (logging.created r) in
  let ms := Py.rjust " " 3 (pretty (Z.of_nat (logging.msecs (logging.created r)))) in
  if bool_decide (fmt = "short") then "[" +:+ logging.levelname r +:+ "]"
  else if bool_decide (fmt = "short-time") then
    time +:+ "." +:+ ms +:+ " [" +:+ logging.levelname r +:+ "]"
  else if bool_decide (fmt = "long") then logging.levelname r +:+ "]"
  else "[" +:+ time +:+ "." +:+ ms +:+ " " +:+ logging.levelname r +:+ "]".


(** The root logger is set up by this module, for the format [fmt] and with
    thresholds that let the custom level through: the installed method is on
    the logger class, and the one handler of the root carries the formatter
    of [fmt]. *)
Definition root_echoes (st : logging.State) (fmt : string) : Prop :=
  recognized fmt
  ∧ logging.class_ns st !! "echo" = Some (logging.PLogForLevel ECHO_LEVEL)
  ∧ logging.level (logging.root st) ≤ ECHO_LEVEL
  ∧ ∃ h f, logging.handlers (logging.root st) = [h]
      ∧ logging.h_level h ≤ ECHO_LEVEL
      ∧ logging.h_formatter h = Some f
      ∧ logging.fmt_str f = fmt_str_of fmt
      ∧ logging.FORMATS f = FORMATS_of (fmt_str_of fmt) (logging.PInt ECHO_LEVEL).

(** The record [log.echo(msg)] builds in state [st] at time [now]. *)
Definition echo_record (st : logging.State) (msg : string) (now : logging.Time)
  : logging.LogRecord :=
  {| logging.levelno := ECHO_LEVEL;
     logging.levelname := logging.getLevelName ECHO_LEVEL st;
     logging.message := msg; logging.created := now |}.

(** The line that record comes out as on the console. *)
Definition echo_line (st : logging.State) (fmt msg : string) (now : logging.Time)
  : string :=
  Ansi.C "m" +:+ rendered_prefix fmt (echo_record st msg now) +:+ Ansi.C "reset"
    +:+ " " +:+ msg +:+ Py.ch Py.LF.

(** The text [echo] puts in front of every pair. *)
Definition echo_header (frameinfo : FrameInfo) : string :=
  Py.path_tail (filename frameinfo) +:+ " @ line " +:+ Ansi.C "y"
    +:+ pretty (lineno frameinfo) +:+ Ansi.C "reset" +:+ ":".

(** A call site in a file of the demo. *)
Definition call_site (line : string) : FrameInfo :=
  {| filename := "/home/user/demo.py"; lineno := 25;
     code_context := Some [line +:+ Py.ch Py.LF] |}.

Definition noon : logging.Time :=
  {| logging.hour := 12; logging.minute := 0; logging.second := 0;
     logging.msecs := 0 |}.

(** ** Further vocabulary *)

(** A computation that writes to neither console stream, however it ends. *)
Definition silent {A} (m : logging.M A) : Prop :=
  ∀ st, logging.stdout (m st).2 = logging.stdout st
        ∧ logging.stderr (m st).2 = logging.stderr st.

(** A time of day a clock can show. *)
Definition clock_time (t : logging.Time) : Prop :=
  (logging.hour t < 24 ∧ logging.minute t < 60 ∧ logging.second t < 60
   ∧ logging.msecs t < 1000)%nat.

(** The method name [__add_logging_level] settles on. *)
Definition method_name (levelName : string) (methodName : option string) : string :=
  match methodName with
  | Some (String c m) => String c m
  | _ => Py.lower levelName
  end.

(** Two tag dictionaries with the same keys. *)
Definition same_keys (tags1 tags2 : list (string * string)) : Prop :=
  ∀ key, is_Some (Py.dict_get key tags1) ↔ is_Some (Py.dict_get key tags2).

(** The lines [echo] writes for a list of pairs, on a root logger set up for
    [fmt]. *)
Definition echo_lines {Value : Type} (format_value : Value → string)
    (st : logging.State) (fmt header : string) (now : logging.Time)
    (pairs : list (string * Value)) : list string :=
  (λ p, echo_line st fmt (echo_message format_value header p.1 p.2) now) <$> pairs.


(** An argument expression [echo] can read back: it holds no comma and no
    line feed. *)
Definition plain_expression (s : string) : Prop :=
  Py.has_char "," s = false ∧ Py.has_char Py.LF s = false.

(** The caller offers nothing to read the arguments from: no frame, no
    source context, an empty context, or a first line that lacks an opening
    or a closing parenthesis. *)
Definition no_source (caller : option FrameInfo) : Prop :=
  match caller with
  | None => True
  | Some frameinfo =>
      match code_context frameinfo with
      | None => True
      | Some [] => True
      | Some (line :: _) =>
          Py.has_char "(" line = false ∨ Py.has_char ")" line = false
      end
  end.


(** The root logger was given a handler by somebody else, as
    [logging.basicConfig()] does, and this module has registered nothing. *)
Definition foreign_root : logging.State :=
  logging.set_root
    (Logger.set_handlers
       [{| logging.h_ident := 1; logging.h_level := logging.NOTSET;
           logging.h_formatter := None |}])
    (logging.set_next_ident S fresh).

(** * Properties *)

(** ** Strings *)

Lemma append_cons (c : ascii) (s t : string) : String c s +:+ t = String c (s +:+ t).
Proof. reflexivity. Qed.

Lemma append_nil_l (s : string) : "" +:+ s = s.
Proof. reflexivity. Qed.

Lemma append_nil_r (s : string) : s +:+ "" = s.
Proof. induction s as [|c s IH]; [done|]. now rewrite append_cons, IH. Qed.

Lemma append_assoc (s t u : string) : (s +:+ t) +:+ u = s +:+ t +:+ u.
Proof. induction s as [|c s IH]; [done|]. now rewrite !append_cons, IH. Qed.

Lemma length_append (s t : string) :
  String.length (s +:+ t) = (String.length s + String.length t)%nat.
Proof. induction s as [|c s IH]; [done|]. rewrite append_cons. cbn. now rewrite IH. Qed.

(** ** Running a computation step by step *)

Section Steps.

Context {A B : Type}.
Implicit Types (k : A → logging.M B) (st : logging.State).

Lemma run_ret (a : A) k st : logging.bind (logging.ret a) k st = k a st.
Proof. reflexivity. Qed.

Lemma run_raise (e : logging.Exn) k st :
  logging.bind (logging.raise e) k st = (logging.Raised e, st).
Proof. reflexivity. Qed.

Lemma run_returned (m : logging.M A) k st a st' :
  m st = (logging.Returned a, st') → logging.bind m k st = k a st'.
Proof. intros H. unfold logging.bind. now rewrite H. Qed.

Lemma run_raised (m : logging.M A) k st e st' :
  m st = (logging.Raised e, st') → logging.bind m k st = (logging.Raised e, st').
Proof. intros H. unfold logging.bind. now rewrite H. Qed.

End Steps.

Lemma run_get {B} (k : logging.State → logging.M B) st :
  logging.bind logging.get k st = k st st.
Proof. reflexivity. Qed.

Lemma run_modify {B} f (k : unit → logging.M B) st :
  logging.bind (logging.modify f) k st = k tt (f st).
Proof. reflexivity. Qed.

Lemma hasattr_false ns name st :
  logging.namespace ns st !! name = None → logging.hasattr ns name st = false.
Proof.
  intros H. unfold logging.hasattr. rewrite H.
  apply bool_decide_eq_false. intros [x Hx]. discriminate.
Qed.

Lemma hasattr_true ns name st v :
  logging.namespace ns st !! name = Some v → logging.hasattr ns name st = true.
Proof.
  intros H. unfold logging.hasattr. rewrite H.
  apply bool_decide_eq_true. eauto.
Qed.

Lemma getattr_bound ns name st v :
  logging.namespace ns st !! name = Some v →
  logging.getattr ns name st = (logging.Returned v, st).
Proof. intros H. unfold logging.getattr. now rewrite H. Qed.

(** ** The registry *)

Lemma add_logging_level_unregistered st :
  unregistered st →
  __add_logging_level "ECHO" ECHO_LEVEL None st = (logging.Returned tt, register st).
Proof.
  intros (H1 & H2 & H3). unfold __add_logging_level.
  change (Py.lower "ECHO") with "echo".
  rewrite run_get.
  rewrite (hasattr_false logging.logging_module "ECHO" st H1).
  rewrite (hasattr_false logging.logging_module "echo" st H2).
  rewrite (hasattr_false logging.logger_class "echo" st H3).
  reflexivity.
Qed.

Lemma register_ECHO st :
  logging.module_ns (register st) !! "ECHO" = Some (logging.PInt ECHO_LEVEL).
Proof.
  unfold register. cbn. rewrite lookup_insert_ne by discriminate.
  apply lookup_insert_eq.
Qed.

Lemma get_echo_level_unregistered st :
  unregistered st →
  __get_echo_level st = (logging.Returned (logging.PInt ECHO_LEVEL), register st).
Proof.
  intros H. unfold __get_echo_level. rewrite run_get.
  rewrite (hasattr_false logging.logging_module "ECHO" st (proj1 H)). cbn [negb].
  rewrite (run_returned _ _ _ _ _ (add_logging_level_unregistered st H)).
  apply (getattr_bound logging.logging_module), register_ECHO.
Qed.

Lemma get_echo_level_bound st v :
  logging.module_ns st !! "ECHO" = Some v →
  __get_echo_level st = (logging.Returned v, st).
Proof.
  intros H. unfold __get_echo_level. rewrite run_get.
  rewrite (hasattr_true logging.logging_module "ECHO" st v H). cbn [negb].
  rewrite run_ret. now apply (getattr_bound logging.logging_module).
Qed.

Lemma get_echo_level_method_taken st place :
  logging.module_ns st !! "ECHO" = None →
  method_taken st place →
  __get_echo_level st =
    (logging.Raised (logging.AttributeError_already_defined "echo" place), st).
Proof.
  intros H1 H2. unfold __get_echo_level. rewrite run_get.
  rewrite (hasattr_false logging.logging_module "ECHO" st H1). cbn [negb].
  apply run_raised. unfold __add_logging_level.
  change (Py.lower "ECHO") with "echo". rewrite run_get.
  rewrite (hasattr_false logging.logging_module "ECHO" st H1).
  destruct place; cbn in H2.
  - destruct H2 as [v Hv].
    now rewrite (hasattr_true logging.logging_module "echo" st v Hv).
  - destruct H2 as [H2 [v Hv]].
    rewrite (hasattr_false logging.logging_module "echo" st H2).
    now rewrite (hasattr_true logging.logger_class "echo" st v Hv).
Qed.

(** ** [get_logger]: the three ways out *)

Lemma getLogger_ref id st :
  logging.getLogger id st = (logging.Returned (ref_of id), (logging.getLogger id st).2).
Proof.
  unfold logging.getLogger, ref_of. destruct id as [n|]; [|reflexivity].
  destruct (bool_decide (n = "" ∨ n = "root")); [reflexivity|].
  now destruct (logging.loggerDict st !! n).
Qed.

Lemma get_logger_unfold level fmt id st :
  get_logger level fmt id st =
    if logging.hasHandlers (at_the_test level fmt id st) (ref_of id)
    then (logging.Returned (ref_of id), at_the_test level fmt id st)
    else configure (ref_of id) level fmt (at_the_test level fmt id st).
Proof.
  unfold get_logger, at_the_test.
  rewrite (run_returned _ _ _ _ _ (getLogger_ref id st)).
  destruct (bool_decide (level ≠ None) || bool_decide (fmt ≠ None));
    [rewrite run_modify | rewrite run_ret]; rewrite run_get;
    match goal with |- context [logging.hasHandlers ?s ?r] =>
      destruct (logging.hasHandlers s r) end; reflexivity.
Qed.


Lemma get_echo_level_no_conflict st :
  no_conflict st →
  ∃ v, logging.module_ns (after_registration st) !! "ECHO" = Some v ∧
       __get_echo_level st = (logging.Returned v, after_registration st).
Proof.
  intros [[v Hv] | Hu]; unfold after_registration.
  - rewrite Hv. exists v. split; [done|]. now apply get_echo_level_bound.
  - rewrite (proj1 Hu). exists (logging.PInt ECHO_LEVEL).
    split; [apply register_ECHO|]. now apply get_echo_level_unregistered.
Qed.




(** A failed registration ends the configuration, whatever was asked. *)
Lemma configure_conflict logger level fmt st e :
  __get_echo_level st = (logging.Raised e, st) →
  configure logger level fmt st = (logging.Raised e, st).
Proof. intros H. unfold configure. now apply run_raised. Qed.

(** *** What the first two statements of [get_logger] touch *)

Lemma getLogger_keeps id st :
  let st0 := (logging.getLogger id st).2 in
  logging.module_ns st0 = logging.module_ns st ∧
  logging.class_ns st0 = logging.class_ns st ∧
  logging._levelToName st0 = logging._levelToName st ∧
  logging.root st0 = logging.root st ∧
  logging.next_ident st0 = logging.next_ident st ∧
  logging.stdout st0 = logging.stdout st ∧
  logging.stderr st0 = logging.stderr st.
Proof.
  unfold logging.getLogger. destruct id as [n|]; [|done].
  destruct (bool_decide (n = "" ∨ n = "root")); [done|].
  now destruct (logging.loggerDict st !! n).
Qed.

Lemma getLogger_logger_at id st r :
  logging.logger_at (logging.getLogger id st).2 r = logging.logger_at st r.
Proof.
  unfold logging.getLogger. destruct id as [n|]; [|done].
  destruct (bool_decide (n = "" ∨ n = "root")); [done|].
  destruct (logging.loggerDict st !! n) eqn:E; [done|].
  destruct r as [|m]; [done|]. cbn.
  destruct (decide (n = m)) as [->|Hne].
  - now rewrite lookup_insert_eq, E.
  - now rewrite lookup_insert_ne.
Qed.

Lemma update_logger_keeps r f st :
  let st1 := logging.update_logger r f st in
  logging.module_ns st1 = logging.module_ns st ∧
  logging.class_ns st1 = logging.class_ns st ∧
  logging._levelToName st1 = logging._levelToName st ∧
  logging.next_ident st1 = logging.next_ident st ∧
  logging.stdout st1 = logging.stdout st ∧
  logging.stderr st1 = logging.stderr st.
Proof. now destruct r. Qed.

Lemma at_the_test_keeps level fmt id st :
  let st1 := at_the_test level fmt id st in
  logging.module_ns st1 = logging.module_ns st ∧
  logging.class_ns st1 = logging.class_ns st ∧
  logging._levelToName st1 = logging._levelToName st ∧
  logging.next_ident st1 = logging.next_ident st ∧
  logging.stdout st1 = logging.stdout st ∧
  logging.stderr st1 = logging.stderr st.
Proof.
  unfold at_the_test.
  destruct (getLogger_keeps id st) as (H1 & H2 & H3 & _ & H5 & H6 & H7).
  destruct (bool_decide (level ≠ None) || bool_decide (fmt ≠ None)).
  - destruct (update_logger_keeps (ref_of id) (Logger.set_handlers [])
                (logging.getLogger id st).2) as (G1 & G2 & G3 & G5 & G6 & G7).
    cbn zeta in *. rewrite G1, G2, G3, G5, G6, G7. auto 10.
  - cbn zeta in *. auto 10.
Qed.


(** The logger's own handlers are gone once an argument was passed. *)
Lemma at_the_test_cleared level fmt id st :
  level ≠ None ∨ fmt ≠ None →
  logging.handlers (logging.logger_at (at_the_test level fmt id st) (ref_of id)) = [].
Proof.
  intros H. unfold at_the_test.
  replace (bool_decide (level ≠ None) || bool_decide (fmt ≠ None)) with true.
  2:{ symmetry. apply orb_true_iff.
      destruct H; [left | right]; now apply bool_decide_eq_true. }
  destruct (ref_of id) as [|n]; [done|]. cbn.
  rewrite lookup_alter_eq.
  now destruct (logging.loggerDict (logging.getLogger id st).2 !! n).
Qed.


Lemma after_registration_keeps st :
  let st1 := after_registration st in
  logging.root st1 = logging.root st ∧
  logging.loggerDict st1 = logging.loggerDict st ∧
  logging.next_ident st1 = logging.next_ident st ∧
  logging.stdout st1 = logging.stdout st ∧
  logging.stderr st1 = logging.stderr st.
Proof. unfold after_registration. now destruct (logging.module_ns st !! "ECHO"). Qed.

Lemma after_registration_logger_at st r :
  logging.logger_at (after_registration st) r = logging.logger_at st r.
Proof.
  destruct (after_registration_keeps st) as (H1 & H2 & _). cbn zeta in *.
  destruct r; cbn; congruence.
Qed.

(** *** A configuration that succeeds *)

Lemma set_up_format_recognized fmt vals st :
  recognized fmt →
  set_up_format fmt vals st
  = (logging.Returned (fmt_str_of fmt),
     __rename_logging_level_names (tags_of fmt) vals st).
Proof.
  unfold recognized. rewrite !elem_of_cons, elem_of_nil.
  intros [-> | [-> | [-> | [-> | []]]]]; reflexivity.
Qed.

Lemma logger_at_update_same r f st :
  exists_in st r →
  logging.logger_at (logging.update_logger r f st) r = f (logging.logger_at st r).
Proof.
  destruct r as [|n]; [done|]. intros [l Hl]. cbn.
  now rewrite lookup_alter_eq, Hl.
Qed.

Lemma exists_in_update r f st r' :
  exists_in st r' → exists_in (logging.update_logger r f st) r'.
Proof.
  destruct r as [|n], r' as [|m]; try done. cbn.
  intros H. rewrite lookup_alter. case_decide; [subst|done].
  destruct H as [l ->]. cbn. eauto.
Qed.

Lemma update_logger_ext r f g st :
  exists_in st r →
  f (logging.logger_at st r) = g (logging.logger_at st r) →
  logging.update_logger r f st = logging.update_logger r g st.
Proof.
  destruct r as [|n]; cbn.
  - intros _ H. unfold logging.set_root. now rewrite H.
  - intros [l Hl]. rewrite Hl. cbn. intros H.
    unfold logging.set_loggerDict. f_equal.
    apply map_eq. intros k. rewrite !lookup_alter.
    case_decide; [subst k|done]. now rewrite Hl; cbn; rewrite H.
Qed.

Lemma CustomFormatter_run fmt_str st v :
  logging.module_ns st !! "ECHO" = Some v →
  __CustomFormatter fmt_str st
  = (logging.Returned {| logging.fmt_ident := logging.next_ident st;
                         logging.fmt_str := fmt_str;
                         logging.FORMATS := FORMATS_of fmt_str v |},
     logging.set_next_ident S st).
Proof.
  intros H. unfold __CustomFormatter.
  now rewrite (run_returned _ _ _ _ _ (getattr_bound logging.logging_module _ _ _ H)).
Qed.

Lemma Handler_setLevel_int ch z st :
  Logger.Handler_setLevel ch (logging.PInt z) st
  = (logging.Returned {| logging.h_ident := logging.h_ident ch;
                         logging.h_level := z;
                         logging.h_formatter := logging.h_formatter ch |}, st).
Proof. reflexivity. Qed.

Lemma setLevel_int logger z st :
  Logger.setLevel logger (logging.PInt z) st
  = (logging.Returned tt, logging.update_logger logger (Logger.set_level z) st).
Proof. reflexivity. Qed.

Lemma configure_recognized logger level fmt st v z :
  logging.module_ns (after_registration st) !! "ECHO" = Some v →
  no_conflict st →
  recognized (default "short-time" fmt) →
  match level with None => v | Some z' => logging.PInt z' end = logging.PInt z →
  exists_in st logger →
  logging.handlers (logging.logger_at st logger) = [] →
  configure logger level fmt st
  = (logging.Returned logger,
     set_up logger z (default "short-time" fmt) v (after_registration st)).
Proof.
  intros Hv Hc Hf Hz He Hh.
  destruct (get_echo_level_no_conflict st Hc) as (v' & Hv' & Hrun).
  assert (v' = v) as -> by congruence.
  unfold configure. rewrite (run_returned _ _ _ _ _ Hrun).
  assert (Hlevel :
            match level with
            | None => logging.getattr logging.logging_module "ECHO"
            | Some z' => logging.ret (logging.PInt z')
            end (after_registration st)
            = (logging.Returned (logging.PInt z), after_registration st)).
  { destruct level as [z'|]; [now rewrite <- Hz|].
    rewrite <- Hz. now apply (getattr_bound logging.logging_module). }
  rewrite (run_returned _ _ _ _ _ Hlevel).
  rewrite (run_returned _ _ _ _ _ (getattr_bound logging.logging_module _ _ _ Hv)).
  rewrite (run_returned _ _ _ _ _ (set_up_format_recognized _ _ _ Hf)).
  set (st1 := after_registration st).
  set (st2 := __rename_logging_level_names _ _ st1).
  assert (Hv2 : logging.module_ns st2 !! "ECHO" = Some v) by exact Hv.
  rewrite (run_returned _ _ _ _ _ (CustomFormatter_run _ _ _ Hv2)).
  rewrite (run_returned _ _ _ _ _ (eq_refl : Logger.StreamHandler _ = (_, _))).
  rewrite (run_returned _ _ _ _ _ (Handler_setLevel_int _ _ _)).
  rewrite (run_returned _ _ _ _ _ (setLevel_int _ _ _)).
  rewrite (run_returned _ _ _ _ _ (eq_refl : Logger.addHandler _ _ _ = (_, _))).
  unfold logging.ret. f_equal. unfold set_up. fold st1. fold st2.
  set (st4 := logging.update_logger logger (Logger.set_level z) _).
  assert (Hh4 : logging.handlers (logging.logger_at st4 logger) = []).
  { subst st4. rewrite logger_at_update_same.
    - cbn. replace (logging.logger_at _ logger) with (logging.logger_at st1 logger)
        by (now destruct logger).
      subst st1. now rewrite after_registration_logger_at.
    - destruct logger as [|n]; [done|]. cbn.
      destruct (after_registration_keeps st) as (_ & K2 & _). cbn zeta in K2.
      fold st1 in K2. now rewrite K2. }
  apply update_logger_ext.
  - subst st4. apply exists_in_update.
    destruct logger as [|n]; [done|]. cbn.
    destruct (after_registration_keeps st) as (_ & K2 & _). cbn zeta in K2.
    fold st1 in K2. now rewrite K2.
  - cbv beta. now rewrite Hh4.
Qed.

(** ** The logger tree *)

Lemma substring_length_le m s : (String.length (String.substring 0 m s) ≤ m)%nat.
Proof.
  revert s. induction m as [|m IH]; intros [|c s]; cbn; try lia.
  specialize (IH s). lia.
Qed.

Lemma rfind_dot_lt s hi j :
  Py.rfind_dot s hi = Some j → (j < hi ∧ j < String.length s)%nat.
Proof.
  revert s j. induction hi as [|h IH]; intros [|c s] j; cbn; try discriminate.
  destruct (Py.rfind_dot s h) as [j'|] eqn:E.
  - intros [= <-]. destruct (IH _ _ E). lia.
  - destruct (Ascii.eqb c "."); [|discriminate]. intros [= <-]. lia.
Qed.

Lemma dotted_prefixes_from_shorter fuel name i :
  (∀ j, i = Some j → (j < String.length name)%nat) →
  Forall (λ p, (String.length p < String.length name)%nat)
         (logging.dotted_prefixes_from fuel name i).
Proof.
  revert i. induction fuel as [|fuel IH]; intros i Hi; cbn; [constructor|].
  destruct i as [[|k]|]; try constructor.
  - specialize (Hi _ eq_refl).
    pose proof (substring_length_le (S k) name). lia.
  - apply IH. intros j Hj. apply rfind_dot_lt in Hj.
    specialize (Hi _ eq_refl). lia.
Qed.

(** The prefixes tried for a name are shorter than the name. *)
Lemma dotted_prefixes_shorter name :
  Forall (λ p, (String.length p < String.length name)%nat)
         (logging.dotted_prefixes name).
Proof.
  apply dotted_prefixes_from_shorter. intros j Hj.
  now apply rfind_dot_lt in Hj.
Qed.

Lemma parent_shorter st name :
  shorter_than (String.length name) (logging.parent st name).
Proof.
  unfold logging.parent.
  destruct (filter _ (logging.dotted_prefixes name)) as [|p rest] eqn:E; [done|].
  assert (Hp : p ∈ filter (λ p, is_Some (logging.loggerDict st !! p))
                     (logging.dotted_prefixes name)) by (rewrite E; left).
  apply list_elem_of_filter in Hp as [_ Hp].
  pose proof (dotted_prefixes_shorter name) as HF.
  rewrite Forall_forall in HF. now apply HF.
Qed.

(** The fuel given to [lineage] is enough: the chain ends at the root. *)
Lemma lineage_from_reaches_root st fuel r :
  shorter_than fuel r → last (logging.lineage_from fuel st r) = Some logging.Root.
Proof.
  revert r. induction fuel as [|fuel IH]; intros [|q] H; cbn in *; try done; try lia.
  pose proof (parent_shorter st q) as Hp.
  specialize (IH (logging.parent st q)).
  destruct (logging.lineage_from fuel st (logging.parent st q)) eqn:E.
  - destruct (logging.parent st q), fuel; discriminate.
  - rewrite last_cons, IH; [done|].
    destruct (logging.parent st q); cbn in *; [done|lia].
Qed.

Lemma lineage_reaches_root st r : last (logging.lineage st r) = Some logging.Root.
Proof.
  destruct r as [|n]; [done|]. unfold logging.lineage.
  apply lineage_from_reaches_root. cbn. lia.
Qed.

Lemma lineage_Named st n :
  logging.lineage st (logging.Named n) = logging.Named n :: ancestors st n.
Proof. reflexivity. Qed.

(** Two states that agree on the short names have the same chains there. *)
Section Agree.

Context (st st' : logging.State) (N : nat).
Hypothesis same_short :
  ∀ k, (String.length k < N)%nat → logging.loggerDict st' !! k = logging.loggerDict st !! k.
Hypothesis same_root : logging.root st' = logging.root st.





End Agree.


(** ** The severity ladder (C1) *)

(** C1, as the code has it: once [__get_echo_level] has registered the
    level, [logging.ECHO] is [ECHO_LEVEL], the level-name table knows it as
    [ECHO], and the ladder is strictly increasing in the order
    DEBUG < ECHO < INFO < WARNING < ERROR < CRITICAL: the custom level lies
    strictly between DEBUG and INFO. *)
Theorem C1_ladder_after_registration (st : logging.State) :
  unregistered st →
  ∃ st', __get_echo_level st = (logging.Returned (logging.PInt ECHO_LEVEL), st')
    ∧ logging.module_ns st' !! "ECHO" = Some (logging.PInt ECHO_LEVEL)
    ∧ logging.getLevelName ECHO_LEVEL st' = "ECHO"
    ∧ logging.DEBUG < ECHO_LEVEL ∧ ECHO_LEVEL < logging.INFO
    ∧ logging.INFO < logging.WARNING ∧ logging.WARNING < logging.ERROR
    ∧ logging.ERROR < logging.CRITICAL.
Proof.
  intros H. exists (register st). split; [now apply get_echo_level_unregistered|].
  split; [apply register_ECHO|]. split.
  - unfold logging.getLevelName, register. cbn. now rewrite lookup_insert_eq.
  - unfold ECHO_LEVEL, logging.DEBUG, logging.INFO, logging.WARNING,
      logging.ERROR, logging.CRITICAL. lia.
Qed.

Lemma fresh_unregistered : unregistered fresh.
Proof. repeat split; vm_compute; reflexivity. Qed.

Lemma C1_ladder_after_registration_witness :
  ∃ st', __get_echo_level fresh = (logging.Returned (logging.PInt ECHO_LEVEL), st')
    ∧ logging.module_ns st' !! "ECHO" = Some (logging.PInt ECHO_LEVEL)
    ∧ logging.getLevelName ECHO_LEVEL st' = "ECHO"
    ∧ logging.DEBUG < ECHO_LEVEL ∧ ECHO_LEVEL < logging.INFO
    ∧ logging.INFO < logging.WARNING ∧ logging.WARNING < logging.ERROR
    ∧ logging.ERROR < logging.CRITICAL.
Proof.
  apply (C1_ladder_after_registration fresh).
  repeat split; vm_compute; reflexivity.
Defined.

(** C1 as stated fails: in a process that has just registered the level,
    its value is not above INFO. *)
Lemma C1_echo_is_below_info :
  __get_echo_level fresh = (logging.Returned (logging.PInt ECHO_LEVEL), register fresh)
  ∧ ¬ (logging.DEBUG < logging.INFO ∧ logging.INFO < ECHO_LEVEL
       ∧ ECHO_LEVEL < logging.WARNING ∧ logging.WARNING < logging.ERROR
       ∧ logging.ERROR < logging.CRITICAL).
Proof.
  split; [apply get_echo_level_unregistered, fresh_unregistered|].
  unfold ECHO_LEVEL, logging.DEBUG, logging.INFO. lia.
Qed.

(** ** Conflicts at registration (C6) *)

(** C6, as the code has it: when the level name is not bound and the method
    name is bound already, on the module or on the logger class,
    [__get_echo_level] raises the [AttributeError] of [__add_logging_level],
    and [get_logger] passes it on to its caller whenever it gets as far as
    configuring, that is when no handler is in reach of the logger.  A state
    in which the level name is bound, by whomever, raises nothing: the
    registration is skipped. *)
Theorem C6_method_conflict_propagates (level : option Z) (fmt id : option string)
    (st : logging.State) (place : logging.Namespace) :
  logging.module_ns st !! "ECHO" = None →
  method_taken st place →
  logging.hasHandlers (at_the_test level fmt id st) (ref_of id) = false →
  let conflict := logging.AttributeError_already_defined "echo" place in
  __get_echo_level st = (logging.Raised conflict, st)
  ∧ get_logger level fmt id st = (logging.Raised conflict, at_the_test level fmt id st)
  ∧ ∀ st2 v, logging.module_ns st2 !! "ECHO" = Some v →
             __get_echo_level st2 = (logging.Returned v, st2).
Proof.
  intros H1 H2 H3 conflict. split; [now apply get_echo_level_method_taken|].
  split; [|intros st2 v; apply get_echo_level_bound].
  rewrite get_logger_unfold, H3. apply configure_conflict.
  destruct (at_the_test_keeps level fmt id st) as (G1 & G2 & _). cbn zeta in *.
  apply get_echo_level_method_taken; [congruence|].
  destruct place; cbn in *; rewrite ?G1, ?G2; assumption.
Qed.

Lemma C6_method_conflict_propagates_witness :
  __get_echo_level foreign_method
    = (logging.Raised (logging.AttributeError_already_defined "echo" logging.logger_class),
       foreign_method)
  ∧ get_logger None None None foreign_method
    = (logging.Raised (logging.AttributeError_already_defined "echo" logging.logger_class),
       at_the_test None None None foreign_method).
Proof.
  destruct (C6_method_conflict_propagates None None None foreign_method
              logging.logger_class) as (H1 & H2 & _).
  - vm_compute; reflexivity.
  - split; [vm_compute; reflexivity | exists logging.PForeign; vm_compute; reflexivity].
  - vm_compute; reflexivity.
  - exact (conj H1 H2).
Defined.

(** C6 as stated fails: with [logging.ECHO] bound by somebody else and no
    [echo] method anywhere, [get_logger] raises nothing. *)
Lemma C6_foreign_level_name_goes_unnoticed :
  logging.module_ns foreign_level !! "ECHO" = Some (logging.PInt 99)
  ∧ logging.class_ns foreign_level !! "echo" = None
  ∧ __get_echo_level foreign_level = (logging.Returned (logging.PInt 99), foreign_level)
  ∧ (get_logger None None None foreign_level).1 = logging.Returned logging.Root
  ∧ ¬ ∃ e st', get_logger None None None foreign_level = (logging.Raised e, st').
Proof.
  assert (H : (get_logger None None None foreign_level).1 = logging.Returned logging.Root)
    by (vm_compute; reflexivity).
  split; [vm_compute; reflexivity|]. split; [vm_compute; reflexivity|].
  split; [apply get_echo_level_bound; vm_compute; reflexivity|].
  split; [exact H|]. intros (e & st' & E). rewrite E in H. discriminate.
Qed.

(** ** An unrecognized format (C2) *)


Lemma hasHandlers_Root st :
  logging.hasHandlers st logging.Root
  = match logging.handlers (logging.root st) with [] => false | _ :: _ => true end.
Proof.
  unfold logging.hasHandlers. cbn.
  destruct (logging.handlers (logging.root st)); [|reflexivity].
  now destruct (logging.propagate (logging.root st)).
Qed.



(** ** Named loggers under configured ancestors (C10) *)








(** ** The fast path (C4) *)

Lemma getLogger_existing id st :
  logging.handlers (logging.logger_at st (ref_of id)) ≠ [] →
  (logging.getLogger id st).2 = st.
Proof.
  unfold ref_of, logging.getLogger. destruct id as [n|]; [|done].
  destruct (bool_decide (n = "" ∨ n = "root")); [done|]. cbn.
  now destruct (logging.loggerDict st !! n).
Qed.

Lemma hasHandlers_own st r :
  logging.handlers (logging.logger_at st r) ≠ [] → logging.hasHandlers st r = true.
Proof.
  intros H. unfold logging.hasHandlers.
  destruct r as [|n]; [|rewrite lineage_Named]; cbn;
    now destruct (logging.handlers _).
Qed.

Lemma get_logger_fast_path id st :
  logging.handlers (logging.logger_at st (ref_of id)) ≠ [] →
  get_logger None None id st = (logging.Returned (ref_of id), st).
Proof.
  intros H. rewrite get_logger_unfold. unfold at_the_test. cbn [orb bool_decide].
  replace (bool_decide (None ≠ None) || bool_decide (None ≠ None)) with false
    by (now rewrite !bool_decide_eq_false_2 by (intros E; now apply E)).
  rewrite (getLogger_existing id st H). now rewrite hasHandlers_own.
Qed.

Lemma exists_in_at_the_test level fmt id st :
  exists_in (at_the_test level fmt id st) (ref_of id).
Proof.
  unfold at_the_test.
  assert (H : exists_in (logging.getLogger id st).2 (ref_of id)).
  { unfold ref_of, logging.getLogger. destruct id as [n|]; [|done].
    destruct (bool_decide (n = "" ∨ n = "root")); [done|]. cbn.
    destruct (logging.loggerDict st !! n) eqn:E; cbn.
    - rewrite E. eauto.
    - rewrite lookup_insert_eq. eauto. }
  destruct (bool_decide (level ≠ None) || bool_decide (fmt ≠ None)); [|done].
  now apply exists_in_update.
Qed.

Lemma ready_after_registration st :
  ready st →
  no_conflict st
  ∧ ∃ e, logging.module_ns (after_registration st) !! "ECHO" = Some (logging.PInt e).
Proof.
  intros [Hu | [z Hz]].
  - split; [now right|]. exists ECHO_LEVEL. unfold after_registration.
    rewrite (proj1 Hu). apply register_ECHO.
  - split; [left; eauto|]. exists z. unfold after_registration. now rewrite Hz.
Qed.

Lemma ready_at_the_test level fmt id st :
  ready st → ready (at_the_test level fmt id st).
Proof.
  destruct (at_the_test_keeps level fmt id st) as (H1 & H2 & _).
  unfold ready, unregistered. cbn zeta in *. now rewrite H1, H2.
Qed.

Lemma set_up_handlers logger z fmt v st :
  exists_in st logger →
  logging.handlers (logging.logger_at st logger) = [] →
  logging.handlers (logging.logger_at (set_up logger z fmt v st) logger)
  = [handler_built z fmt v st].
Proof.
  intros He Hh. unfold set_up.
  set (st4 := logging.set_next_ident S _).
  assert (E4 : ∀ r, logging.logger_at st4 r = logging.logger_at st r)
    by (now intros []).
  assert (He4 : exists_in st4 logger) by (now destruct logger).
  rewrite logger_at_update_same by now apply exists_in_update.
  rewrite logger_at_update_same by done.
  cbn. now rewrite E4, Hh.
Qed.

Lemma set_up_level logger z fmt v st :
  exists_in st logger →
  logging.level (logging.logger_at (set_up logger z fmt v st) logger) = z.
Proof.
  intros He. unfold set_up.
  set (st4 := logging.set_next_ident S _).
  assert (He4 : exists_in st4 logger) by (now destruct logger).
  rewrite logger_at_update_same by now apply exists_in_update.
  now rewrite logger_at_update_same by done.
Qed.

(** A call with a recognized format, on a logger out of reach of any
    handler, sets the logger up with one handler. *)
Lemma get_logger_configures level fmt id st :
  recognized fmt → ready st →
  logging.hasHandlers (at_the_test level (Some fmt) id st) (ref_of id) = false →
  ∃ e z, let st0 := after_registration (at_the_test level (Some fmt) id st) in
    logging.module_ns st0 !! "ECHO" = Some (logging.PInt e)
    ∧ z = default e level
    ∧ get_logger level (Some fmt) id st
      = (logging.Returned (ref_of id), set_up (ref_of id) z fmt (logging.PInt e) st0)
    ∧ logging.handlers
        (logging.logger_at (set_up (ref_of id) z fmt (logging.PInt e) st0) (ref_of id))
      = [handler_built z fmt (logging.PInt e) st0]
    ∧ logging.level
        (logging.logger_at (set_up (ref_of id) z fmt (logging.PInt e) st0) (ref_of id))
      = z.
Proof.
  intros Hf Hr Hh.
  pose proof (ready_at_the_test level (Some fmt) id st Hr) as Hr'.
  destruct (ready_after_registration _ Hr') as (Hc & e & He).
  pose proof (exists_in_at_the_test level (Some fmt) id st) as Hex.
  pose proof (at_the_test_cleared level (Some fmt) id st (or_intror (Some_ne_None fmt)))
    as Hcl.
  exists e, (default e level). cbn zeta. split; [exact He|]. split; [done|].
  assert (Hex' : exists_in (after_registration (at_the_test level (Some fmt) id st))
                   (ref_of id)).
  { destruct (ref_of id); [done|]. cbn in *.
    destruct (after_registration_keeps (at_the_test level (Some fmt) id st))
      as (_ & K & _). cbn zeta in K. now rewrite K. }
  split; [|split].
  - rewrite get_logger_unfold, Hh.
    apply (configure_recognized _ _ (Some fmt) _ (logging.PInt e)); try done.
    now destruct level.
  - apply set_up_handlers; [done|]. now rewrite after_registration_logger_at.
  - now apply set_up_level.
Qed.

(** C4: a logger that has handlers attached is returned as it is by a call
    that passes neither a level nor a format: the whole state, and with it
    the handler, the formatter and the threshold, is what it was.  In
    particular this holds after a set-up with any of the four formats: such a
    set-up attaches one handler carrying the formatter of that format, and a
    following call without arguments changes nothing. *)
Theorem C4_configured_logger_returned_unchanged (id : option string)
    (st : logging.State) :
  logging.handlers (logging.logger_at st (ref_of id)) ≠ [] →
  get_logger None None id st = (logging.Returned (ref_of id), st)
  ∧ ∀ (st0 : logging.State) (level : option Z) (fmt : string),
      recognized fmt → ready st0 →
      logging.hasHandlers (at_the_test level (Some fmt) id st0) (ref_of id) = false →
      ∃ st1 h f,
        get_logger level (Some fmt) id st0 = (logging.Returned (ref_of id), st1)
        ∧ logging.handlers (logging.logger_at st1 (ref_of id)) = [h]
        ∧ logging.h_formatter h = Some f
        ∧ logging.fmt_str f = fmt_str_of fmt
        ∧ get_logger None None id st1 = (logging.Returned (ref_of id), st1).
Proof.
  intros H. split; [now apply get_logger_fast_path|].
  intros st0 level fmt Hf Hr Hh.
  destruct (get_logger_configures level fmt id st0 Hf Hr Hh)
    as (e & z & He & _ & Hrun & Hhs & _). cbn zeta in *.
  eexists _, _, _. split; [exact Hrun|]. split; [exact Hhs|].
  split; [reflexivity|]. split; [reflexivity|].
  apply get_logger_fast_path. now rewrite Hhs.
Qed.

Lemma C4_configured_logger_returned_unchanged_witness :
  get_logger None None None configured_root = (logging.Returned logging.Root, configured_root)
  ∧ ∃ st1 h f,
      get_logger (Some logging.DEBUG) (Some "long-time") None fresh
        = (logging.Returned logging.Root, st1)
      ∧ logging.handlers (logging.root st1) = [h]
      ∧ logging.h_formatter h = Some f
      ∧ logging.fmt_str f = "[%(asctime)s.%(msecs)3d %(levelname)s]"
      ∧ get_logger None None None st1 = (logging.Returned logging.Root, st1).
Proof.
  destruct (C4_configured_logger_returned_unchanged None configured_root) as [H1 H2].
  - vm_compute. discriminate.
  - split; [exact H1|].
    apply (H2 fresh (Some logging.DEBUG) "long-time").
    + unfold recognized. rewrite !elem_of_cons. tauto.
    + left. repeat split; vm_compute; reflexivity.
    + reflexivity.
Defined.

(** ** [newline] (C5) *)

Lemma join_replicate_S k s :
  Py.join "" (replicate (S k) s) = s +:+ Py.join "" (replicate k s).
Proof.
  destruct k as [|k]; cbn; [now rewrite append_nil_r | now rewrite append_nil_l].
Qed.

Lemma line_feeds_print k :
  Py.join "" (replicate k (Py.ch Py.LF)) +:+ Py.ch Py.LF = line_feeds (S k).
Proof.
  unfold line_feeds. induction k as [|k IH]; [reflexivity|].
  rewrite (join_replicate_S (S k)), (join_replicate_S k), append_assoc.
  rewrite IH. now rewrite join_replicate_S.
Qed.

Lemma count_line_feeds_LF s :
  count_line_feeds (String Py.LF s) = S (count_line_feeds s).
Proof. reflexivity. Qed.

Lemma count_line_feeds_line_feeds k : count_line_feeds (line_feeds k) = k.
Proof.
  unfold line_feeds. induction k as [|k IH]; [reflexivity|].
  rewrite join_replicate_S. unfold Py.ch at 1.
  now rewrite append_cons, append_nil_l, count_line_feeds_LF, IH.
Qed.

Lemma getEffectiveLevel_Root st :
  logging.getEffectiveLevel st logging.Root = logging.level (logging.root st).
Proof.
  unfold logging.getEffectiveLevel. cbn. case_bool_decide as H; [|done].
  now rewrite H.
Qed.

(** C5, as the code has it: the text handed to [print] is [n - 1] line
    feeds and [print] ends it with one more, so on a root logger that is set
    up [newline(n)] writes [max(n, 1)] line feeds, that is [n] blank lines for
    [n >= 1], when the threshold of the root logger is at or below INFO, and
    writes nothing when it is above; nothing else changes.  [newline(3)]
    writes three blank lines. *)
Theorem C5_newline_writes_n_line_feeds (n : Z) (st : logging.State) :
  logging.handlers (logging.root st) ≠ [] →
  let k := Z.to_nat (Z.max n 1) in
  newline n st
  = (logging.Returned tt,
     if bool_decide (logging.level (logging.root st) ≤ logging.INFO)
     then logging.set_stdout (λ out, (out ++ [line_feeds k])%list) st
     else st)
  ∧ count_line_feeds (line_feeds k) = k
  ∧ String.length (line_feeds k) = k
  ∧ line_feeds (Z.to_nat (Z.max 3 1)) = line_feeds 3
  ∧ logging.getEffectiveLevel st logging.Root = logging.level (logging.root st).
Proof.
  intros H k. split; [|split; [|split; [|split]]].
  - unfold newline.
    rewrite (run_returned _ _ _ _ _ (get_logger_fast_path None st H)).
    rewrite run_get. cbn [ref_of logging.logger_at].
    case_bool_decide; [|reflexivity].
    unfold print, logging.modify, logging.set_stdout.
    rewrite line_feeds_print.
    replace (S (Z.to_nat (n - 1))) with k by (subst k; lia). reflexivity.
  - apply count_line_feeds_line_feeds.
  - unfold line_feeds. clear H. induction k as [|k IH]; [reflexivity|].
    rewrite join_replicate_S, length_append, IH. reflexivity.
  - reflexivity.
  - apply getEffectiveLevel_Root.
Qed.

Lemma C5_newline_writes_n_line_feeds_witness :
  newline 3 configured_root
  = (logging.Returned tt,
     logging.set_stdout (λ out, (out ++ [line_feeds 3])%list) configured_root)
  ∧ count_line_feeds (line_feeds 3) = 3%nat.
Proof.
  destruct (C5_newline_writes_n_line_feeds 3 configured_root) as (H1 & H2 & _).
  - vm_compute. discriminate.
  - split; [exact H1 | exact H2].
Defined.

(** C5 as stated fails: with the root logger at the ECHO threshold, below
    INFO, [newline(3)] writes three line feeds, not two. *)
Lemma C5_newline_3_writes_three :
  logging.level (logging.root configured_root) ≤ logging.INFO
  ∧ (newline 3 configured_root).1 = logging.Returned tt
  ∧ logging.stdout (newline 3 configured_root).2
    = (logging.stdout configured_root
        ++ [String Py.LF (String Py.LF (String Py.LF ""))])%list
  ∧ count_line_feeds (String Py.LF (String Py.LF (String Py.LF ""))) ≠ Z.to_nat (3 - 1).
Proof.
  split; [vm_compute; discriminate|]. split; [vm_compute; reflexivity|].
  split; [vm_compute; reflexivity|]. vm_compute. discriminate.
Qed.

(** ** The formatter (C9) *)

(** A template in two parts is rendered part by part, provided the first
    part is a complete template. *)
Lemma percent_format_app r a b scan a' :
  logging.percent_format r scan a = Some a' →
  logging.percent_format r scan (a +:+ b)
  = (λ b', a' +:+ b') <$> logging.percent_format r logging.in_text b.
Proof.
  revert scan a'. induction a as [|c a IH]; intros scan a'.
  - destruct scan; cbn; try discriminate. intros [= <-]. rewrite append_nil_l.
    now destruct (logging.percent_format r logging.in_text b).
  - rewrite append_cons. cbn [logging.percent_format]. destruct scan.
    + destruct (Ascii.eqb c "%"); [apply IH|].
      destruct (logging.percent_format r logging.in_text a) as [t|] eqn:E;
        [|discriminate].
      cbn. intros [= <-]. rewrite (IH _ _ E).
      now destruct (logging.percent_format r logging.in_text b).
    + destruct (Ascii.eqb c "("); [apply IH|].
      destruct (Ascii.eqb c "%"); [|discriminate].
      destruct (logging.percent_format r logging.in_text a) as [t|] eqn:E;
        [|discriminate].
      cbn. intros [= <-]. rewrite (IH _ _ E).
      now destruct (logging.percent_format r logging.in_text b).
    + destruct (Ascii.eqb c ")"); apply IH.
    + destruct (logging.digit_of c); [apply IH|].
      destruct (logging.record_field r key); [|discriminate].
      destruct (logging.convert c width f) as [piece|]; [|discriminate].
      destruct (logging.percent_format r logging.in_text a) as [t|] eqn:E;
        [|discriminate].
      intros [= <-]. rewrite (IH _ _ E).
      destruct (logging.percent_format r logging.in_text b); cbn; [|done].
      now rewrite append_assoc.
Qed.

Lemma message_tail r :
  logging.percent_format r logging.in_text (Ansi.C "reset" +:+ " %(message)s")
  = Some (Ansi.C "reset" +:+ " " +:+ logging.message r).
Proof.
  transitivity (Some (Ansi.C "reset" +:+ " " +:+ (logging.message r +:+ "")));
    [reflexivity | now rewrite append_nil_r].
Qed.

(** What an entry of [FORMATS] renders to. *)
Lemma custom_format_entry (f : logging.Formatter) r color fs prefix :
  logging.FORMATS f !! logging.levelno r
    = Some (color +:+ fs +:+ Ansi.C "reset" +:+ " %(message)s") →
  logging.percent_format r logging.in_text color = Some color →
  logging.Formatter_format (Some fs) r = Some prefix →
  __CustomFormatter_format f r
  = Some (color +:+ prefix +:+ Ansi.C "reset" +:+ " " +:+ logging.message r).
Proof.
  intros Hl Hc Hp. unfold __CustomFormatter_format. rewrite Hl.
  unfold logging.Formatter_format in *. cbn [from_option id] in *.
  rewrite (percent_format_app _ _ _ _ _ Hc), (percent_format_app _ _ _ _ _ Hp).
  now rewrite message_tail.
Qed.

Lemma custom_format_no_entry (f : logging.Formatter) r :
  logging.FORMATS f !! logging.levelno r = None →
  __CustomFormatter_format f r = Some (logging.message r).
Proof.
  intros Hl. unfold __CustomFormatter_format. rewrite Hl.
  transitivity (Some (logging.message r +:+ ""));
    [reflexivity | now rewrite append_nil_r].
Qed.

(** C9, as the code has it: [format] looks the severity of the record up in
    [FORMATS], which has one entry for each of DEBUG, INFO, ECHO, WARNING,
    ERROR, CRITICAL and NOTSET.  For these seven values the line is the colour
    of the severity, the rendered prefix, the reset code, a blank and the
    message.  For any other severity the lookup finds nothing and the record
    is rendered with the default template of the package: the message
    alone, without colour and without reset code. *)
Theorem C9_render_by_severity (i : nat) (fs : string) (r : logging.LogRecord)
    (prefix : string) :
  logging.Formatter_format (Some fs) r = Some prefix →
  let f := {| logging.fmt_ident := i; logging.fmt_str := fs;
              logging.FORMATS := FORMATS_of fs (logging.PInt ECHO_LEVEL) |} in
  match ladder_color (logging.levelno r) with
  | Some color =>
      logging.FORMATS f !! logging.levelno r
        = Some (color +:+ fs +:+ Ansi.C "reset" +:+ " %(message)s")
      ∧ __CustomFormatter_format f r
        = Some (color +:+ prefix +:+ Ansi.C "reset" +:+ " " +:+ logging.message r)
  | None =>
      logging.FORMATS f !! logging.levelno r = None
      ∧ __CustomFormatter_format f r = Some (logging.message r)
      ∧ logging.FORMATS f !! logging.NOTSET
        = Some (Ansi.C "gy" +:+ fs +:+ Ansi.C "reset" +:+ " %(message)s")
  end.
Proof.
  intros Hp f. unfold ladder_color.
  repeat case_bool_decide;
    try (match goal with H : logging.levelno r = _ |- _ =>
           assert (Hl : logging.FORMATS f !! logging.levelno r
                        = Some (_ +:+ fs +:+ Ansi.C "reset" +:+ " %(message)s"))
             by (rewrite H; cbn [f logging.FORMATS]; unfold FORMATS_of;
                 rewrite ?lookup_insert_ne by discriminate;
                 now rewrite lookup_insert_eq);
           split; [exact Hl|];
           now apply (custom_format_entry f r _ fs prefix Hl)
         end).
  assert (Hl : logging.FORMATS f !! logging.levelno r = None).
  { cbn [f logging.FORMATS]. unfold FORMATS_of.
    rewrite !lookup_insert_ne by done. apply lookup_empty. }
  split; [exact Hl|]. split; [now apply custom_format_no_entry|].
  cbn [f logging.FORMATS]. unfold FORMATS_of. now rewrite lookup_insert_eq.
Qed.

Lemma C9_render_by_severity_witness :
  logging.FORMATS (formatter_built "short" (logging.PInt ECHO_LEVEL) fresh) !! 25 = None
  ∧ __CustomFormatter_format
      (formatter_built "short" (logging.PInt ECHO_LEVEL) fresh) odd_record
    = Some "hello".
Proof.
  destruct (C9_render_by_severity 1 "[%(levelname)s]" odd_record "[Level 25]")
    as (H1 & H2 & _).
  - reflexivity.
  - split; [exact H1 | exact H2].
Defined.

(** C9 as stated fails: a record at severity 25 is not rendered with the
    gray entry; it comes out as its bare message, with no colour and no reset
    code. *)
Lemma C9_unknown_severity_is_not_gray :
  let f := formatter_built "short" (logging.PInt ECHO_LEVEL) fresh in
  logging.FORMATS f !! logging.levelno odd_record = None
  ∧ __CustomFormatter_format f odd_record = Some "hello"
  ∧ logging.Formatter_format (logging.FORMATS f !! logging.NOTSET) odd_record
    = Some (Ansi.C "gy" +:+ "[Level 25]" +:+ Ansi.C "reset" +:+ " hello")
  ∧ __CustomFormatter_format f odd_record
    ≠ logging.Formatter_format (logging.FORMATS f !! logging.NOTSET) odd_record.
Proof.
  cbn zeta. split; [vm_compute; reflexivity|]. split; [vm_compute; reflexivity|].
  split; [vm_compute; reflexivity|]. vm_compute. discriminate.
Qed.

(** ** Padding of the long tags (C7) *)

Lemma rename_lookup tags vals st lv :
  logging._levelToName (__rename_logging_level_names tags vals st) !! lv
  = (λ _, match tag_for tags vals lv with
          | Some name => name
          | None => logging.getLevelName lv st
          end) <$> logging._levelToName st !! lv.
Proof.
  unfold __rename_logging_level_names. cbn. rewrite map_lookup_imap.
  now destruct (logging._levelToName st !! lv).
Qed.

Lemma pad_long_4 tag : String.length tag = 4%nat → pad_long tag = " [" +:+ tag.
Proof. intros H. unfold pad_long. now rewrite H. Qed.

Lemma pad_long_5 tag : String.length tag = 5%nat → pad_long tag = "[" +:+ tag.
Proof. intros H. unfold pad_long. now rewrite H. Qed.

Lemma pad_long_time_4 tag : String.length tag = 4%nat → pad_long_time tag = " " +:+ tag.
Proof. intros H. unfold pad_long_time. now rewrite H. Qed.

Lemma pad_long_time_5 tag : String.length tag = 5%nat → pad_long_time tag = tag.
Proof. intros H. unfold pad_long_time. now rewrite H. Qed.

(** C7: in the long family a tag of four characters gets exactly one blank
    in front (before the bracket for [long]) and a tag of five characters
    none, so all padded tags have one width: six with the bracket for [long],
    five for [long-time].  The padding is done while [get_logger] sets the
    format up: the padded tag is stored in the level-name table, and the
    rendering of a record copies the level name of the record into the
    template without touching it. *)
Theorem C7_long_tags_padded_at_configuration (fmt key tag : string) (lv : Z)
    (st : logging.State) :
  fmt = "long" ∨ fmt = "long-time" →
  (key, tag) ∈ tags_long →
  Py.dict_get key (values (logging.PInt ECHO_LEVEL)) = Some (logging.PInt lv) →
  is_Some (logging._levelToName st !! lv) →
  let st' := (set_up_format fmt (values (logging.PInt ECHO_LEVEL)) st).2 in
  (String.length tag = 4%nat ∨ String.length tag = 5%nat)
  ∧ (String.length tag = 4%nat →
       pad_long tag = " [" +:+ tag ∧ pad_long_time tag = " " +:+ tag)
  ∧ (String.length tag = 5%nat →
       pad_long tag = "[" +:+ tag ∧ pad_long_time tag = tag)
  ∧ String.length (pad_long tag) = 6%nat
  ∧ String.length (pad_long_time tag) = 5%nat
  ∧ logging.getLevelName lv st' = pad_for fmt tag
  ∧ ∀ r, logging.Formatter_format (Some (fmt_str_of fmt)) r = Some (rendered_prefix fmt r).
Proof.
  intros Hfmt Hin Hval [old Hold] st'. unfold tags_long in Hin.
  assert (Hname : logging.getLevelName lv st' = pad_for fmt tag).
  { unfold logging.getLevelName. subst st'.
    rewrite set_up_format_recognized
      by (unfold recognized; rewrite !elem_of_cons; tauto).
    cbn [snd]. rewrite rename_lookup, Hold. cbn [fmap option_fmap option_map].
    rewrite !elem_of_cons, elem_of_nil in Hin.
    destruct Hin as [E|[E|[E|[E|[E|[E|[E|[]]]]]]]]; injection E as -> ->;
      injection Hval as <-; destruct Hfmt as [-> | ->]; reflexivity. }
  split; [|split; [|split; [|split; [|split; [|split]]]]]; try exact Hname.
  - rewrite !elem_of_cons, elem_of_nil in Hin.
    destruct Hin as [E|[E|[E|[E|[E|[E|[E|[]]]]]]]]; injection E as -> ->;
      cbn; auto.
  - intros H. split; [now apply pad_long_4 | now apply pad_long_time_4].
  - intros H. split; [now apply pad_long_5 | now apply pad_long_time_5].
  - rewrite !elem_of_cons, elem_of_nil in Hin.
    destruct Hin as [E|[E|[E|[E|[E|[E|[E|[]]]]]]]]; injection E as -> ->;
      reflexivity.
  - rewrite !elem_of_cons, elem_of_nil in Hin.
    destruct Hin as [E|[E|[E|[E|[E|[E|[E|[]]]]]]]]; injection E as -> ->;
      reflexivity.
  - intros r. destruct Hfmt as [-> | ->]; reflexivity.
Qed.

Lemma C7_long_tags_padded_at_configuration_witness :
  pad_long "INFO" = " [INFO" ∧ pad_long_time "INFO" = " INFO"
  ∧ logging.getLevelName logging.INFO
      (set_up_format "long" (values (logging.PInt ECHO_LEVEL)) fresh).2 = " [INFO".
Proof.
  destruct (C7_long_tags_padded_at_configuration "long" "INFO" "INFO" logging.INFO fresh)
    as (_ & H4 & _ & _ & _ & Hn & _).
  - left. reflexivity.
  - unfold tags_long. rewrite !elem_of_cons. right. left. reflexivity.
  - reflexivity.
  - vm_compute. eauto.
  - destruct (H4 eq_refl) as [Ha Hb]. split; [exact Ha|]. split; [exact Hb|].
    exact Hn.
Defined.

(** ** [echo] (C8, C3) *)

Lemma rendered_prefix_ok fmt r :
  recognized fmt →
  logging.Formatter_format (Some (fmt_str_of fmt)) r = Some (rendered_prefix fmt r).
Proof.
  unfold recognized. rewrite !elem_of_cons, elem_of_nil.
  intros [-> | [-> | [-> | [-> | []]]]]; reflexivity.
Qed.

(** On a root logger set up by this module, [log.echo(msg)] writes one line. *)
Lemma Logger_echo_root st fmt msg now :
  root_echoes st fmt →
  Logger.echo logging.Root msg now st
  = (logging.Returned tt,
     logging.set_stderr (λ out, (out ++ [echo_line st fmt msg now])%list) st).
Proof.
  intros (Hf & Hm & Hlv & h & f & Hhs & Hhl & Hhf & Hfs & Hfm).
  unfold Logger.echo. rewrite Hm. f_equal.
  unfold Logger.logForLevel, logging.isEnabledFor.
  rewrite (bool_decide_eq_false_2 (ECHO_LEVEL ≤ 0)) by (unfold ECHO_LEVEL, logging.DEBUG; lia).
  rewrite getEffectiveLevel_Root, bool_decide_eq_true_2 by done.
  unfold Logger._log, Logger.callHandlers. fold (echo_record st msg now).
  cbn [logging.lineage Logger.callHandlers_along logging.logger_at].
  rewrite Hhs. cbn [Logger.handle_all fold_left length].
  rewrite bool_decide_eq_true_2 by exact Hhl.
  assert (Hline : Logger.emit h (echo_record st msg now) st
            = logging.set_stderr (λ out, (out ++ [echo_line st fmt msg now])%list) st).
  { unfold Logger.emit, Logger.Handler_format. rewrite Hhf.
    rewrite (custom_format_entry f _ (Ansi.C "m") (fmt_str_of fmt)
               (rendered_prefix fmt (echo_record st msg now))).
    - unfold echo_line. now rewrite !append_assoc.
    - rewrite Hfm. cbn [echo_record logging.levelno]. unfold FORMATS_of.
      rewrite !lookup_insert_ne by discriminate. now rewrite lookup_insert_eq.
    - reflexivity.
    - now apply rendered_prefix_ok. }
  rewrite Hline. now destruct (logging.propagate (logging.root st)).
Qed.

Lemma root_echoes_after_write st fmt f :
  root_echoes st fmt → root_echoes (logging.set_stderr f st) fmt.
Proof. exact id. Qed.


(** A first [get_logger()] in a process sets the root logger up so. *)
Lemma first_use_echoes st :
  unregistered st →
  logging.handlers (logging.root st) = [] →
  ∃ st1, get_logger None None None st = (logging.Returned logging.Root, st1)
         ∧ root_echoes st1 "short-time".
Proof.
  intros Hu Hh.
  assert (Hv : logging.module_ns (after_registration st) !! "ECHO"
               = Some (logging.PInt ECHO_LEVEL)).
  { unfold after_registration. rewrite (proj1 Hu). apply register_ECHO. }
  assert (Hrec : recognized "short-time")
    by (unfold recognized; rewrite !elem_of_cons; tauto).
  exists (set_up logging.Root ECHO_LEVEL "short-time" (logging.PInt ECHO_LEVEL)
            (after_registration st)).
  split.
  - rewrite get_logger_unfold.
    change (at_the_test None None None st) with st.
    change (ref_of None) with logging.Root.
    rewrite hasHandlers_Root, Hh.
    now apply (configure_recognized logging.Root None None st
                 (logging.PInt ECHO_LEVEL) ECHO_LEVEL); [| right | | | |].
  - split; [exact Hrec|]. split.
    { unfold after_registration. rewrite (proj1 Hu). cbn.
      now rewrite lookup_insert_eq. }
    split.
    { change (logging.root ?s) with (logging.logger_at s logging.Root).
      now rewrite set_up_level. }
    eexists _, _. split.
    { change (logging.root ?s) with (logging.logger_at s logging.Root).
      apply set_up_handlers; [done|].
      now rewrite after_registration_logger_at. }
    cbn. repeat split. reflexivity.
Qed.


Section EchoProperties.

Context {Value : Type} (format_value : Value → string).

Lemma echo_unfold args kwargs frameinfo line rest r now st st1 :
  code_context frameinfo = Some (line :: rest) →
  Py.re_search_parens line = Some r →
  get_logger None None None st = (logging.Returned logging.Root, st1) →
  echo format_value args kwargs (Some frameinfo) now st
  = echo_each format_value logging.Root (echo_header frameinfo)
      (echo_pairs r args kwargs) now st1.
Proof.
  intros Hctx Hre Hlog. unfold echo.
  rewrite (run_returned _ _ _ _ _ Hlog). now rewrite Hctx, Hre.
Qed.

(** The pairs [echo] runs over when keywords are passed: the names read from
    the source are cut after as many entries as there are keywords, plus one. *)
Lemma echo_pairs_with_kwargs r (args : list Value) kw kwargs :
  echo_pairs r args (kw :: kwargs)
  = Py.zip (take (length (kw :: kwargs) + 1) (Py.split ", " r)
              ++ (kw :: kwargs).*1)%list
           (args ++ (kw :: kwargs).*2)%list.
Proof.
  unfold echo_pairs. rewrite bool_decide_eq_true_2 by (cbn; lia).
  unfold append_kwargs.
  generalize (take (length (kw :: kwargs) + 1) (Py.split ", " r)) as names.
  generalize (kw :: kwargs) as kws. clear. intros kws. revert args.
  induction kws as [|[k v] kws IH]; intros args names; cbn.
  - now rewrite !app_nil_r.
  - rewrite IH. cbn. now rewrite <- !app_assoc.
Qed.


(** C3, where the code departs from it: for a call written
    [echo(expr, label=value)] the names read from the line are cut after two
    entries (one keyword, plus one), which keeps the source text
    [label=value]; the keyword [label] is appended third and finds no value
    left to pair with.  The last line is named [label=value]. *)
Theorem C3_echo_expr_label_value (v1 v2 : Value) (kw : string * Value)
    (r : string) (args : list Value) (kwargs : list (string * Value)) :
  Py.re_search_parens ("echo(expr, label=value)" +:+ Py.ch Py.LF)
    = Some "expr, label=value"
  ∧ echo_pairs "expr, label=value" [v1] [("label", v2)]
    = [("expr", v1); ("label=value", v2)]
  ∧ last (echo_pairs "expr, label=value" [v1] [("label", v2)]).*1
    = Some "label=value"
  ∧ echo_pairs r args (kw :: kwargs)
    = Py.zip (take (length (kw :: kwargs) + 1) (Py.split ", " r)
                ++ (kw :: kwargs).*1)%list
             (args ++ (kw :: kwargs).*2)%list.
Proof.
  split; [reflexivity|]. split; [reflexivity|]. split; [reflexivity|].
  apply echo_pairs_with_kwargs.
Qed.

End EchoProperties.

Lemma configured_root_echoes : root_echoes configured_root "short-time".
Proof.
  split; [unfold recognized; rewrite !elem_of_cons; tauto|].
  split; [vm_compute; reflexivity|]. split; [vm_compute; discriminate|].
  exists (handler_built ECHO_LEVEL "short-time" (logging.PInt ECHO_LEVEL) (register fresh)),
         (formatter_built "short-time" (logging.PInt ECHO_LEVEL) (register fresh)).
  split; [vm_compute; reflexivity|]. split; [vm_compute; discriminate|].
  repeat split.
Qed.


(** The two lines of that call, as they appear on the console. *)
Example echo_a_b_on_console :
  logging.stderr
    (echo (λ z : Z, pretty z) [1; 2] [] (Some (call_site "echo(a, b)")) noon fresh).2
  = [Ansi.C "m" +:+ "12:00:00.  0 [>]" +:+ Ansi.C "reset" +:+ " demo.py @ line "
       +:+ Ansi.C "y" +:+ "25" +:+ Ansi.C "reset" +:+ ": " +:+ Py.ch Py.TAB +:+ " "
       +:+ Ansi.C "c" +:+ "a" +:+ Ansi.C "reset" +:+ " => " +:+ Ansi.C "g" +:+ "1"
       +:+ Ansi.C "reset" +:+ Py.ch Py.LF;
     Ansi.C "m" +:+ "12:00:00.  0 [>]" +:+ Ansi.C "reset" +:+ " demo.py @ line "
       +:+ Ansi.C "y" +:+ "25" +:+ Ansi.C "reset" +:+ ": " +:+ Py.ch Py.TAB +:+ " "
       +:+ Ansi.C "c" +:+ "b" +:+ Ansi.C "reset" +:+ " => " +:+ Ansi.C "g" +:+ "2"
       +:+ Ansi.C "reset" +:+ Py.ch Py.LF].
Proof. vm_compute. reflexivity. Qed.

(** With one keyword after one positional argument the second line carries
    the source text of the keyword argument, not the keyword. *)
Example echo_label_on_console :
  logging.stderr
    (echo (λ z : Z, pretty z) [1] [("label", 2)]
       (Some (call_site "echo(expr, label=value)")) noon fresh).2
  = [Ansi.C "m" +:+ "12:00:00.  0 [>]" +:+ Ansi.C "reset" +:+ " demo.py @ line "
       +:+ Ansi.C "y" +:+ "25" +:+ Ansi.C "reset" +:+ ": " +:+ Py.ch Py.TAB +:+ " "
       +:+ Ansi.C "c" +:+ "expr" +:+ Ansi.C "reset" +:+ " => " +:+ Ansi.C "g" +:+ "1"
       +:+ Ansi.C "reset" +:+ Py.ch Py.LF;
     Ansi.C "m" +:+ "12:00:00.  0 [>]" +:+ Ansi.C "reset" +:+ " demo.py @ line "
       +:+ Ansi.C "y" +:+ "25" +:+ Ansi.C "reset" +:+ ": " +:+ Py.ch Py.TAB +:+ " "
       +:+ Ansi.C "c" +:+ "label=value" +:+ Ansi.C "reset" +:+ " => " +:+ Ansi.C "g"
       +:+ "2" +:+ Ansi.C "reset" +:+ Py.ch Py.LF].
Proof. vm_compute. reflexivity. Qed.

(** The call of the demo has two positional arguments before its keyword:
    there the cut after two names happens to drop exactly the keyword
    argument, and the keyword names the last value. *)
Example echo_pairs_of_the_demo :
  Py.re_search_parens
    ("echo('Example call to echo() with multiple arguments.', a, blah=b)"
       +:+ Py.ch Py.LF)
    = Some "'Example call to echo() with multiple arguments.', a, blah=b"
  ∧ echo_pairs "'Example call to echo() with multiple arguments.', a, blah=b"
      ["Example"; "2"] [("blah", "[3, 4]")]
    = [("'Example call to echo() with multiple arguments.'", "Example");
       ("a", "2"); ("blah", "[3, 4]")].
Proof. split; reflexivity. Qed.

(** * Further properties *)

(** ** The registry, beyond the custom level *)

(** X1: [__add_logging_level] on free names binds the level name to the
    number, installs the two logging methods under the method name, and names
    the level in the table; called again with the same arguments it raises
    the [AttributeError] about the level name and changes nothing. *)
Theorem add_logging_level_installs_once (levelName : string) (levelNum : Z)
    (methodName : option string) (st : logging.State) :
  let m := method_name levelName methodName in
  levelName ≠ m →
  logging.module_ns st !! levelName = None →
  logging.module_ns st !! m = None →
  logging.class_ns st !! m = None →
  ∃ st1,
    __add_logging_level levelName levelNum methodName st = (logging.Returned tt, st1)
    ∧ logging.module_ns st1 !! levelName = Some (logging.PInt levelNum)
    ∧ logging.module_ns st1 !! m = Some (logging.PLogToRoot levelNum)
    ∧ logging.class_ns st1 !! m = Some (logging.PLogForLevel levelNum)
    ∧ logging.getLevelName levelNum st1 = levelName
    ∧ __add_logging_level levelName levelNum methodName st1
      = (logging.Raised
           (logging.AttributeError_already_defined levelName logging.logging_module),
         st1).
Proof.
  intros m Hne H1 H2 H3.
  set (st1 := logging.setattr logging.logging_module m (logging.PLogToRoot levelNum)
     (logging.setattr logging.logger_class m (logging.PLogForLevel levelNum)
        (logging.setattr logging.logging_module levelName (logging.PInt levelNum)
           (logging.addLevelName levelNum levelName st)))).
  assert (Hl : logging.module_ns st1 !! levelName = Some (logging.PInt levelNum)).
  { subst st1. cbn. rewrite lookup_insert_ne by done. apply lookup_insert_eq. }
  exists st1. split; [|split; [exact Hl|split; [|split; [|split]]]].
  - unfold __add_logging_level. fold (method_name levelName methodName). fold m.
    rewrite run_get.
    rewrite (hasattr_false logging.logging_module levelName st H1).
    rewrite (hasattr_false logging.logging_module m st H2).
    rewrite (hasattr_false logging.logger_class m st H3).
    reflexivity.
  - subst st1. cbn. apply lookup_insert_eq.
  - subst st1. cbn. apply lookup_insert_eq.
  - unfold logging.getLevelName. subst st1. cbn. now rewrite lookup_insert_eq.
  - unfold __add_logging_level. rewrite run_get.
    now rewrite (hasattr_true logging.logging_module levelName st1 _ Hl).
Qed.

Lemma add_logging_level_installs_once_witness :
  ∃ st1,
    __add_logging_level "TRACE" 5 None fresh = (logging.Returned tt, st1)
    ∧ logging.module_ns st1 !! "TRACE" = Some (logging.PInt 5)
    ∧ logging.module_ns st1 !! "trace" = Some (logging.PLogToRoot 5)
    ∧ logging.class_ns st1 !! "trace" = Some (logging.PLogForLevel 5)
    ∧ logging.getLevelName 5 st1 = "TRACE"
    ∧ __add_logging_level "TRACE" 5 None st1
      = (logging.Raised
           (logging.AttributeError_already_defined "TRACE" logging.logging_module),
         st1).
Proof.
  apply (add_logging_level_installs_once "TRACE" 5 None fresh);
    [discriminate | reflexivity | reflexivity | reflexivity].
Defined.

(** What a returning [__get_echo_level] has done. *)
Lemma get_echo_level_returned st v st1 :
  __get_echo_level st = (logging.Returned v, st1) →
  st1 = after_registration st ∧ logging.module_ns st1 !! "ECHO" = Some v.
Proof.
  intros H. unfold after_registration.
  destruct (logging.module_ns st !! "ECHO") as [w|] eqn:E.
  - rewrite (get_echo_level_bound st w E) in H. injection H as <- <-. done.
  - destruct (logging.module_ns st !! "echo") as [x|] eqn:E2.
    { rewrite (get_echo_level_method_taken st logging.logging_module E) in H
        by (cbn; rewrite E2; eauto). discriminate. }
    destruct (logging.class_ns st !! "echo") as [x|] eqn:E3.
    { rewrite (get_echo_level_method_taken st logging.logger_class E) in H
        by (cbn; rewrite E3; eauto). discriminate. }
    rewrite get_echo_level_unregistered in H by done.
    injection H as <- <-. split; [done|apply register_ECHO].
Qed.

(** X2: the registration is idempotent.  Once [__get_echo_level] has
    returned, calling it again returns the same value and leaves the state as
    it is, and a direct second [__add_logging_level('ECHO', ...)] is refused. *)
Theorem get_echo_level_idempotent (st st1 : logging.State) (v : logging.PyVal) :
  __get_echo_level st = (logging.Returned v, st1) →
  __get_echo_level st1 = (logging.Returned v, st1)
  ∧ logging.module_ns st1 !! "ECHO" = Some v
  ∧ __add_logging_level "ECHO" ECHO_LEVEL None st1
    = (logging.Raised
         (logging.AttributeError_already_defined "ECHO" logging.logging_module),
       st1).
Proof.
  intros H. destruct (get_echo_level_returned st v st1 H) as [_ Hv].
  split; [now apply get_echo_level_bound|]. split; [exact Hv|].
  unfold __add_logging_level. rewrite run_get.
  now rewrite (hasattr_true logging.logging_module "ECHO" st1 v Hv).
Qed.

Lemma get_echo_level_idempotent_witness :
  __get_echo_level (register fresh)
    = (logging.Returned (logging.PInt ECHO_LEVEL), register fresh)
  ∧ logging.module_ns (register fresh) !! "ECHO" = Some (logging.PInt ECHO_LEVEL).
Proof.
  destruct (get_echo_level_idempotent fresh (register fresh) (logging.PInt ECHO_LEVEL))
    as (H1 & H2 & _).
  - vm_compute. reflexivity.
  - split; [exact H1 | exact H2].
Defined.

(** ** [get_logger], beyond the claims *)

Section Silent.

Context {A B : Type}.

Lemma silent_ret (a : A) : silent (logging.ret a).
Proof. now intros st. Qed.

Lemma silent_raise (e : logging.Exn) : silent (@logging.raise A e).
Proof. now intros st. Qed.

Lemma silent_bind (m : logging.M A) (k : A → logging.M B) :
  silent m → (∀ a, silent (k a)) → silent (logging.bind m k).
Proof.
  intros Hm Hk st. unfold logging.bind.
  destruct (Hm st) as [H1 H2]. destruct (m st) as [[a|e] st']; cbn in *.
  - destruct (Hk a st') as [G1 G2]. split; congruence.
  - done.
Qed.

End Silent.

Lemma silent_get : silent logging.get.
Proof. now intros st. Qed.

Lemma silent_modify f :
  (∀ st, logging.stdout (f st) = logging.stdout st
         ∧ logging.stderr (f st) = logging.stderr st) →
  silent (logging.modify f).
Proof. intros H st. apply H. Qed.

Lemma silent_getattr ns name : silent (logging.getattr ns name).
Proof. intros st. unfold logging.getattr. now destruct (_ !! _). Qed.

Lemma silent_setattr ns name v : silent (logging.modify (logging.setattr ns name v)).
Proof. apply silent_modify. now destruct ns. Qed.

Lemma silent_update_logger r f : silent (logging.modify (logging.update_logger r f)).
Proof. apply silent_modify. now destruct r. Qed.

Lemma silent_add_logging_level levelName levelNum methodName :
  silent (__add_logging_level levelName levelNum methodName).
Proof.
  unfold __add_logging_level.
  apply silent_bind; [apply silent_get|]. intros st.
  repeat (match goal with |- silent (if ?c then _ else _) => destruct c end);
    try apply silent_raise.
  repeat (apply silent_bind; [|intros _]);
    try apply silent_setattr; now apply silent_modify.
Qed.

Lemma silent_get_echo_level : silent __get_echo_level.
Proof.
  unfold __get_echo_level. apply silent_bind; [apply silent_get|]. intros st.
  apply silent_bind; [|intros _; apply silent_getattr].
  destruct (negb _); [apply silent_add_logging_level | apply silent_ret].
Qed.

Lemma silent_set_up_format fmt vals : silent (set_up_format fmt vals).
Proof.
  unfold set_up_format.
  destruct (is_in fmt ["short"; "short-time"]).
  { apply silent_bind; [now apply silent_modify | intros _; apply silent_ret]. }
  destruct (is_in fmt ["long"; "long-time"]); [|apply silent_raise].
  destruct (bool_decide (fmt = "long"));
    (apply silent_bind; [now apply silent_modify | intros _; apply silent_ret]).
Qed.

Lemma silent_fresh_ident : silent fresh_ident.
Proof. now intros st. Qed.

Lemma silent_checkLevel lvl : silent (logging._checkLevel lvl).
Proof. destruct lvl; [apply silent_ret | apply silent_raise ..]. Qed.

Lemma silent_configure logger level fmt : silent (configure logger level fmt).
Proof.
  unfold configure.
  apply silent_bind; [apply silent_get_echo_level | intros _].
  apply silent_bind;
    [destruct level; [apply silent_ret | apply silent_getattr] | intros lvl].
  apply silent_bind; [apply silent_getattr | intros echo_value].
  apply silent_bind; [apply silent_set_up_format | intros fmt_str].
  apply silent_bind; [| intros formatter].
  { unfold __CustomFormatter. apply silent_bind; [apply silent_getattr | intros v].
    apply silent_bind; [apply silent_fresh_ident | intros i; apply silent_ret]. }
  apply silent_bind; [| intros ch].
  { unfold Logger.StreamHandler.
    apply silent_bind; [apply silent_fresh_ident | intros i; apply silent_ret]. }
  apply silent_bind; [| intros ch'].
  { unfold Logger.Handler_setLevel.
    apply silent_bind; [apply silent_checkLevel | intros z; apply silent_ret]. }
  apply silent_bind; [| intros _].
  { unfold Logger.setLevel.
    apply silent_bind; [apply silent_checkLevel | intros z; apply silent_update_logger]. }
  apply silent_bind; [apply silent_update_logger | intros _; apply silent_ret].
Qed.

(** X3: [get_logger] never writes to the console.  Whatever its arguments
    and the state of the process, and whether it returns or raises, both
    streams hold afterwards what they held before. *)
Theorem get_logger_writes_nothing (level : option Z) (fmt id : option string)
    (st : logging.State) :
  logging.stdout (get_logger level fmt id st).2 = logging.stdout st
  ∧ logging.stderr (get_logger level fmt id st).2 = logging.stderr st.
Proof.
  revert st. change (silent (get_logger level fmt id)). unfold get_logger.
  apply silent_bind; [| intros logger].
  { intros st. destruct (getLogger_keeps id st) as (_ & _ & _ & _ & _ & H1 & H2).
    now split. }
  apply silent_bind; [| intros _].
  { destruct (_ || _); [apply silent_update_logger | apply silent_ret]. }
  apply silent_bind; [apply silent_get | intros st].
  destruct (logging.hasHandlers st logger); [apply silent_ret | apply silent_configure].
Qed.

Lemma set_handlers_nil_id l :
  logging.handlers l = [] → Logger.set_handlers [] l = l.
Proof. destruct l as [hs lv pr]. cbn. now intros ->. Qed.

Lemma update_logger_nothing_to_clear r st :
  logging.handlers (logging.logger_at st r) = [] →
  logging.update_logger r (Logger.set_handlers []) st = st.
Proof.
  destruct st as [mns cns names rt dict nid out err], r as [|n]; cbn.
  - intros H. unfold logging.set_root. cbn. now rewrite set_handlers_nil_id.
  - intros H. unfold logging.set_loggerDict. cbn. f_equal.
    apply map_eq. intros k. rewrite lookup_alter. case_decide; [subst k|done].
    destruct (dict !! n) as [l|]; [cbn in *|done].
    now rewrite set_handlers_nil_id.
Qed.

Lemma after_registration_ECHO_same s st :
  logging.module_ns s = logging.module_ns st →
  logging.module_ns (after_registration s) !! "ECHO"
  = logging.module_ns (after_registration st) !! "ECHO".
Proof.
  intros H. unfold after_registration. rewrite H.
  destruct (logging.module_ns st !! "ECHO") eqn:E; [congruence|].
  now rewrite !register_ECHO.
Qed.

(** X4: the defaults.  On a logger without handlers of its own, a call
    without arguments does exactly what a call with the value of
    [logging.ECHO] as level and [short-time] as format does. *)
Theorem get_logger_defaults (id : option string) (st : logging.State) (e : Z) :
  logging.handlers (logging.logger_at st (ref_of id)) = [] →
  logging.module_ns (after_registration st) !! "ECHO" = Some (logging.PInt e) →
  get_logger None None id st = get_logger (Some e) (Some "short-time") id st.
Proof.
  intros Hh He. rewrite !get_logger_unfold.
  assert (Hat : at_the_test (Some e) (Some "short-time") id st
                = at_the_test None None id st).
  { unfold at_the_test.
    rewrite (bool_decide_eq_true_2 (Some e ≠ None)) by done.
    rewrite (bool_decide_eq_false_2 (@None Z ≠ None)) by (intros E; now apply E).
    rewrite (bool_decide_eq_false_2 (@None string ≠ None)) by (intros E; now apply E).
    cbn [orb]. cbv zeta. apply update_logger_nothing_to_clear.
    now rewrite getLogger_logger_at. }
  rewrite Hat. set (s := at_the_test None None id st).
  destruct (logging.hasHandlers s (ref_of id)); [reflexivity|].
  unfold configure.
  destruct (__get_echo_level s) as [[v|ex] s'] eqn:E;
    [|now rewrite !(run_raised _ _ _ _ _ E)].
  rewrite !(run_returned _ _ _ _ _ E).
  destruct (get_echo_level_returned s v s' E) as [-> Hv].
  destruct (at_the_test_keeps None None id st) as (K & _). cbn zeta in K. fold s in K.
  rewrite (after_registration_ECHO_same s st K), He in Hv. injection Hv as <-.
  assert (He' : logging.module_ns (after_registration s) !! "ECHO"
                = Some (logging.PInt e))
    by now rewrite (after_registration_ECHO_same s st K).
  rewrite (run_returned _ _ _ _ _
             (getattr_bound logging.logging_module "ECHO" _ (logging.PInt e) He')).
  now rewrite run_ret.
Qed.

Lemma get_logger_defaults_witness :
  get_logger None None None fresh
  = get_logger (Some ECHO_LEVEL) (Some "short-time") None fresh.
Proof.
  apply (get_logger_defaults None fresh ECHO_LEVEL); reflexivity.
Defined.

(** A call that gets as far as configuring, with a recognized format on a
    registry that is ready, ends in [set_up]. *)
Lemma get_logger_sets_up level fmt id st :
  recognized (default "short-time" fmt) → ready st →
  logging.hasHandlers (at_the_test level fmt id st) (ref_of id) = false →
  ∃ e, logging.module_ns (after_registration (at_the_test level fmt id st)) !! "ECHO"
         = Some (logging.PInt e)
       ∧ get_logger level fmt id st
         = (logging.Returned (ref_of id),
            set_up (ref_of id) (default e level) (default "short-time" fmt)
              (logging.PInt e) (after_registration (at_the_test level fmt id st))).
Proof.
  intros Hf Hr Hh.
  pose proof (ready_at_the_test level fmt id st Hr) as Hr'.
  destruct (ready_after_registration _ Hr') as (Hc & e & He).
  exists e. split; [exact He|].
  rewrite get_logger_unfold, Hh.
  apply (configure_recognized _ _ fmt _ (logging.PInt e)); try done.
  - now destruct level.
  - apply exists_in_at_the_test.
  - destruct (logging.handlers _) eqn:E; [done|].
    rewrite hasHandlers_own in Hh; [discriminate | now rewrite E].
Qed.

Lemma set_up_keeps logger z fmt v st :
  let st1 := set_up logger z fmt v st in
  logging.module_ns st1 = logging.module_ns st
  ∧ logging.class_ns st1 = logging.class_ns st
  ∧ logging.stdout st1 = logging.stdout st
  ∧ logging.stderr st1 = logging.stderr st.
Proof. now destruct logger. Qed.

(** X5: configuring is a reset, not an addition.  A call on the root logger
    that passes a level or a format (a recognized one, the registry being
    ready) leaves the root with exactly one handler, however many it had;
    the handler and the logger share one threshold, the level passed or else
    the value of [logging.ECHO]; and the state is ready for the next such
    call. *)
Theorem reconfiguring_root_leaves_one_handler (level : option Z)
    (fmt : option string) (st : logging.State) :
  level ≠ None ∨ fmt ≠ None →
  recognized (default "short-time" fmt) →
  ready st →
  ∃ st1 h f e,
    get_logger level fmt None st = (logging.Returned logging.Root, st1)
    ∧ logging.handlers (logging.root st1) = [h]
    ∧ logging.h_level h = default e level
    ∧ logging.level (logging.root st1) = default e level
    ∧ logging.h_formatter h = Some f
    ∧ logging.fmt_str f = fmt_str_of (default "short-time" fmt)
    ∧ logging.module_ns st1 !! "ECHO" = Some (logging.PInt e)
    ∧ ready st1.
Proof.
  intros Harg Hf Hr.
  pose proof (at_the_test_cleared level fmt None st Harg) as Hcl.
  assert (Hh : logging.hasHandlers (at_the_test level fmt None st) (ref_of None) = false).
  { change (ref_of None) with logging.Root in *. rewrite hasHandlers_Root.
    cbn in Hcl. now rewrite Hcl. }
  destruct (get_logger_sets_up level fmt None st Hf Hr Hh) as (e & He & Hrun).
  set (st0 := after_registration (at_the_test level fmt None st)) in *.
  destruct (set_up_keeps logging.Root (default e level) (default "short-time" fmt)
              (logging.PInt e) st0) as (K1 & _). cbn zeta in K1.
  exists (set_up logging.Root (default e level) (default "short-time" fmt)
            (logging.PInt e) st0),
         (handler_built (default e level) (default "short-time" fmt) (logging.PInt e) st0),
         (formatter_built (default "short-time" fmt) (logging.PInt e) st0), e.
  split; [exact Hrun|]. split.
  { change (logging.root ?s) with (logging.logger_at s logging.Root).
    apply set_up_handlers; [done|].
    subst st0. now rewrite after_registration_logger_at. }
  split; [reflexivity|]. split.
  { change (logging.root ?s) with (logging.logger_at s logging.Root).
    now apply set_up_level. }
  split; [reflexivity|]. split; [reflexivity|].
  split; [now rewrite K1|]. right. exists e. now rewrite K1.
Qed.

Lemma reconfiguring_root_leaves_one_handler_witness :
  ∃ st1 h f e,
    get_logger (Some logging.WARNING) None None configured_root
      = (logging.Returned logging.Root, st1)
    ∧ logging.handlers (logging.root st1) = [h]
    ∧ logging.h_level h = default e (Some logging.WARNING)
    ∧ logging.level (logging.root st1) = default e (Some logging.WARNING)
    ∧ logging.h_formatter h = Some f
    ∧ logging.fmt_str f = fmt_str_of "short-time"
    ∧ logging.module_ns st1 !! "ECHO" = Some (logging.PInt e)
    ∧ ready st1.
Proof.
  apply (reconfiguring_root_leaves_one_handler (Some logging.WARNING) None
           configured_root).
  - left. discriminate.
  - unfold recognized. cbn. rewrite !elem_of_cons. tauto.
  - right. exists ECHO_LEVEL. vm_compute. reflexivity.
Defined.



(** ** Renaming the levels, beyond the claims *)

Lemma tag_fold_none (tags : list (string * string)) (vals : list (string * logging.PyVal)) lv acc :
  (∀ kv, kv ∈ vals → kv.2 ≠ logging.PInt lv) →
  fold_left
    (λ name kv, if bool_decide (kv.2 = logging.PInt lv)
                then Py.dict_get kv.1 tags else name)
    vals acc = acc.
Proof.
  revert acc. induction vals as [|kv vals IH]; intros acc H; cbn; [done|].
  rewrite bool_decide_eq_false_2 by (apply H; left).
  apply IH. intros kv' Hin. apply H. now right.
Qed.

Lemma tag_fold_is_Some (tags1 tags2 : list (string * string)) (vals : list (string * logging.PyVal)) lv acc1 acc2 :
  same_keys tags1 tags2 →
  (is_Some acc1 ↔ is_Some acc2) →
  is_Some (fold_left
             (λ name kv, if bool_decide (kv.2 = logging.PInt lv)
                         then Py.dict_get kv.1 tags1 else name) vals acc1)
  ↔ is_Some (fold_left
               (λ name kv, if bool_decide (kv.2 = logging.PInt lv)
                           then Py.dict_get kv.1 tags2 else name) vals acc2).
Proof.
  intros Hk. revert acc1 acc2.
  induction vals as [|kv vals IH]; intros acc1 acc2 H; cbn; [done|].
  apply IH. case_bool_decide; [apply Hk | done].
Qed.

Lemma dict_get_is_Some {V} key (d : list (string * V)) :
  is_Some (Py.dict_get key d) ↔ key ∈ d.*1.
Proof.
  induction d as [|[k v] d IH]; cbn.
  - rewrite elem_of_nil. split; [intros [x Hx]; discriminate | done].
  - rewrite elem_of_cons. case_bool_decide as E.
    + split; [now left | eauto].
    + rewrite IH. split; [now right | intros [->|]; [contradiction|done]].
Qed.

Lemma tags_of_keys fmt : recognized fmt → (tags_of fmt).*1 = tags_short.*1.
Proof.
  unfold recognized. rewrite !elem_of_cons, elem_of_nil.
  intros [-> | [-> | [-> | [-> | []]]]]; reflexivity.
Qed.

Lemma tags_of_same_keys fmt1 fmt2 :
  recognized fmt1 → recognized fmt2 → same_keys (tags_of fmt1) (tags_of fmt2).
Proof.
  intros H1 H2 key. now rewrite !dict_get_is_Some, !tags_of_keys.
Qed.

(** X7: renaming neither adds nor drops a level, and a level that is none
    of the values passed keeps its name. *)
Theorem rename_keeps_other_levels (tags : list (string * string))
    (vals : list (string * logging.PyVal)) (st : logging.State) (lv : Z) :
  (∀ kv, kv ∈ vals → kv.2 ≠ logging.PInt lv) →
  let st' := __rename_logging_level_names tags vals st in
  logging._levelToName st' !! lv = logging._levelToName st !! lv
  ∧ logging.getLevelName lv st' = logging.getLevelName lv st
  ∧ dom (logging._levelToName st') = dom (logging._levelToName st).
Proof.
  intros H st'.
  assert (E : logging._levelToName st' !! lv = logging._levelToName st !! lv).
  { subst st'. rewrite rename_lookup. unfold tag_for.
    rewrite tag_fold_none by done. unfold logging.getLevelName.
    now destruct (logging._levelToName st !! lv). }
  split; [exact E|]. split; [unfold logging.getLevelName; now rewrite E|].
  apply set_eq. intros k. rewrite !elem_of_dom. subst st'. rewrite rename_lookup.
  now rewrite fmap_is_Some.
Qed.

Lemma rename_keeps_other_levels_witness :
  logging.getLevelName 25
    (__rename_logging_level_names tags_short (values (logging.PInt ECHO_LEVEL))
       (logging.addLevelName 25 "NOTICE" fresh))
  = "NOTICE".
Proof.
  destruct (rename_keeps_other_levels tags_short (values (logging.PInt ECHO_LEVEL))
              (logging.addLevelName 25 "NOTICE" fresh) 25) as (_ & H & _).
  - unfold values. intros kv Hin. rewrite !elem_of_cons, elem_of_nil in Hin.
    destruct Hin as [->|[->|[->|[->|[->|[->|[->|[]]]]]]]]; discriminate.
  - rewrite H. reflexivity.
Defined.

(** X8: the level names are process-wide and the last format set up
    decides them: setting up one recognized format after another leaves the
    level-name table exactly as setting up the second alone would. *)
Theorem last_format_decides_level_names (fmt1 fmt2 : string)
    (vals : list (string * logging.PyVal)) (st : logging.State) :
  recognized fmt1 → recognized fmt2 →
  logging._levelToName
    (set_up_format fmt2 vals (set_up_format fmt1 vals st).2).2
  = logging._levelToName (set_up_format fmt2 vals st).2.
Proof.
  intros H1 H2. rewrite !set_up_format_recognized by done. cbn [snd].
  apply map_eq. intros lv. rewrite !rename_lookup.
  destruct (logging._levelToName st !! lv) as [old|] eqn:E; [cbn|done].
  f_equal. destruct (tag_for (tags_of fmt2) vals lv) as [name|] eqn:E2; [done|].
  unfold logging.getLevelName. rewrite rename_lookup, E. cbn.
  destruct (tag_for (tags_of fmt1) vals lv) as [name|] eqn:E1;
    [|unfold logging.getLevelName; now rewrite E].
  assert (Hs : is_Some (tag_for (tags_of fmt2) vals lv)).
  { unfold tag_for in *.
    apply (tag_fold_is_Some (tags_of fmt1) (tags_of fmt2) vals lv None None);
      [now apply tags_of_same_keys | done | rewrite E1; eauto]. }
  rewrite E2 in Hs. now destruct Hs.
Qed.

Lemma last_format_decides_level_names_witness :
  logging.getLevelName logging.INFO
    (set_up_format "short" (values (logging.PInt ECHO_LEVEL))
       (set_up_format "long" (values (logging.PInt ECHO_LEVEL)) fresh).2).2
  = "-".
Proof.
  unfold logging.getLevelName.
  rewrite (last_format_decides_level_names "long" "short"
             (values (logging.PInt ECHO_LEVEL)) fresh).
  - reflexivity.
  - unfold recognized. rewrite !elem_of_cons. tauto.
  - unfold recognized. rewrite !elem_of_cons. tauto.
Defined.

(** X9: in the short family every level of the ladder is named by a tag of
    one character once the format is set up, so the bracketed tag of a
    rendered line is three characters wide. *)
Theorem short_tags_at_configuration (fmt key tag : string) (lv : Z)
    (st : logging.State) :
  fmt = "short" ∨ fmt = "short-time" →
  (key, tag) ∈ tags_short →
  Py.dict_get key (values (logging.PInt ECHO_LEVEL)) = Some (logging.PInt lv) →
  is_Some (logging._levelToName st !! lv) →
  let st' := (set_up_format fmt (values (logging.PInt ECHO_LEVEL)) st).2 in
  String.length tag = 1%nat
  ∧ logging.getLevelName lv st' = tag
  ∧ ∀ r, logging.levelname r = logging.getLevelName lv st' →
         logging.Formatter_format (Some (fmt_str_of fmt)) r
           = Some (rendered_prefix fmt r)
         ∧ rendered_prefix "short" r = "[" +:+ tag +:+ "]"
         ∧ String.length (rendered_prefix "short" r) = 3%nat.
Proof.
  intros Hfmt Hin Hval [old Hold] st'. unfold tags_short in Hin.
  assert (Hlen : String.length tag = 1%nat).
  { rewrite !elem_of_cons, elem_of_nil in Hin.
    destruct Hin as [E|[E|[E|[E|[E|[E|[E|[]]]]]]]]; injection E as -> ->;
      reflexivity. }
  assert (Hname : logging.getLevelName lv st' = tag).
  { unfold logging.getLevelName. subst st'.
    rewrite set_up_format_recognized
      by (unfold recognized; rewrite !elem_of_cons; tauto).
    cbn [snd]. rewrite rename_lookup, Hold. cbn [fmap option_fmap option_map].
    rewrite !elem_of_cons, elem_of_nil in Hin.
    destruct Hin as [E|[E|[E|[E|[E|[E|[E|[]]]]]]]]; injection E as -> ->;
      injection Hval as <-; destruct Hfmt as [-> | ->]; reflexivity. }
  split; [exact Hlen|]. split; [exact Hname|].
  intros r Hr. rewrite Hname in Hr.
  assert (Hp : rendered_prefix "short" r = "[" +:+ tag +:+ "]")
    by (rewrite <- Hr; reflexivity).
  split; [destruct Hfmt as [-> | ->]; reflexivity|]. split; [exact Hp|].
  rewrite Hp, !length_append, Hlen. reflexivity.
Qed.

Lemma short_tags_at_configuration_witness :
  logging.getLevelName logging.WARNING
    (set_up_format "short-time" (values (logging.PInt ECHO_LEVEL)) fresh).2 = "!".
Proof.
  destruct (short_tags_at_configuration "short-time" "WARNING" "!" logging.WARNING fresh)
    as (_ & H & _).
  - right. reflexivity.
  - unfold tags_short. rewrite !elem_of_cons. tauto.
  - reflexivity.
  - vm_compute. eauto.
  - exact H.
Defined.

(** ** Colours, time stamps and rendering, beyond the claims *)

(** X10: the colour table.  The full name and the abbreviation of the
    [i]-th colour give one and the same escape code, [ESC [ 3 i ; 1 m], and
    with the prefix [bg_] both give [ESC [ 4 i ; 1 m]: no round of the loop
    overwrites a key of another round. *)
Theorem color_table_names_and_abbreviations (i : nat) (c abbv : string) :
  Ansi.__ANSI_COLORS !! i = Some c →
  Ansi.__ANSI_COLORS_ABBV !! i = Some abbv →
  Ansi.C c = Ansi.__ANSI_ESC +:+ "3" +:+ pretty i +:+ ";1m"
  ∧ Ansi.C abbv = Ansi.C c
  ∧ Ansi.C ("bg_" +:+ c) = Ansi.__ANSI_ESC +:+ "4" +:+ pretty i +:+ ";1m"
  ∧ Ansi.C ("bg_" +:+ abbv) = Ansi.C ("bg_" +:+ c).
Proof.
  intros Hc Ha.
  do 9 (destruct i as [|i];
        [injection Hc as <-; injection Ha as <-; repeat split; vm_compute; reflexivity|]).
  discriminate.
Qed.

Lemma color_table_names_and_abbreviations_witness :
  Ansi.C "blue" = Ansi.__ANSI_ESC +:+ "34;1m" ∧ Ansi.C "b" = Ansi.C "blue".
Proof.
  destruct (color_table_names_and_abbreviations 4 "blue" "b") as (H1 & H2 & _).
  - reflexivity.
  - reflexivity.
  - split; [exact H1 | exact H2].
Defined.

Lemma two_digits_length n :
  (n < 100)%nat → String.length (logging.two_digits n) = 2%nat.
Proof.
  intros Hn.
  assert (H : forallb (λ n, Nat.eqb (String.length (logging.two_digits n)) 2)
                (seq 0 100) = true) by (vm_compute; reflexivity).
  rewrite forallb_forall in H. apply Nat.eqb_eq, H, in_seq. lia.
Qed.

Lemma msecs_length n :
  (n < 1000)%nat →
  String.length (Py.rjust " " 3 (pretty (Z.of_nat n))) = 3%nat.
Proof.
  intros Hn.
  assert (H : forallb (λ n, Nat.eqb
                  (String.length (Py.rjust " " 3 (pretty (Z.of_nat n)))) 3)
                (seq 0 1000) = true) by (vm_compute; reflexivity).
  rewrite forallb_forall in H. apply Nat.eqb_eq, H, in_seq. lia.
Qed.

(** X11: time stamps have one width.  For a time of day a clock can show,
    [__curr_time_str] and the [asctime] of a record are eight characters, the
    milliseconds are padded to three, and so the prefix of the two
    [-time] formats is fifteen characters plus the level name. *)
Theorem time_stamps_have_fixed_width (r : logging.LogRecord) :
  clock_time (logging.created r) →
  String.length (__curr_time_str (logging.created r)) = 8%nat
  ∧ String.length (logging.formatTime (logging.created r)) = 8%nat
  ∧ String.length (rendered_prefix "short-time" r)
    = (15 + String.length (logging.levelname r))%nat
  ∧ String.length (rendered_prefix "long-time" r)
    = (15 + String.length (logging.levelname r))%nat.
Proof.
  intros (Hh & Hm & Hs & Hms).
  assert (H8 : String.length (logging.formatTime (logging.created r)) = 8%nat).
  { unfold logging.formatTime. rewrite !length_append.
    rewrite !two_digits_length by lia. reflexivity. }
  pose proof (msecs_length _ Hms) as H3.
  split; [exact H8|]. split; [exact H8|].
  unfold rendered_prefix.
  rewrite (bool_decide_eq_false_2 ("short-time" = "short")) by discriminate.
  rewrite (bool_decide_eq_true_2 ("short-time" = "short-time")) by reflexivity.
  rewrite (bool_decide_eq_false_2 ("long-time" = "short")) by discriminate.
  rewrite (bool_decide_eq_false_2 ("long-time" = "short-time")) by discriminate.
  rewrite (bool_decide_eq_false_2 ("long-time" = "long")) by discriminate.
  cbv zeta. rewrite !length_append, H8, H3. cbn. lia.
Qed.

Lemma time_stamps_have_fixed_width_witness :
  String.length (__curr_time_str (logging.created odd_record)) = 8%nat
  ∧ String.length (rendered_prefix "short-time" odd_record) = 23%nat.
Proof.
  destruct (time_stamps_have_fixed_width odd_record) as (H1 & _ & H3 & _).
  - unfold clock_time. cbn. lia.
  - split; [exact H1 | exact H3].
Defined.

(** Every entry of [FORMATS] is a colour of the table around the template. *)
Lemma FORMATS_of_entry fs v lv :
  FORMATS_of fs v !! lv = None
  ∨ ∃ color, color ∈ ["b"; "g"; "m"; "y"; "r"; "bg_r"; "gy"]
      ∧ FORMATS_of fs v !! lv
        = Some (Ansi.C color +:+ fs +:+ Ansi.C "reset" +:+ " %(message)s").
Proof.
  unfold FORMATS_of.
  repeat (rewrite lookup_insert; case_decide;
          [right; eexists; split; [|reflexivity]; rewrite !elem_of_cons; tauto|]).
  destruct v;
    repeat (rewrite lookup_insert; case_decide;
            [right; eexists; split; [|reflexivity]; rewrite !elem_of_cons; tauto|]);
    left; apply lookup_empty.
Qed.

(** X12: rendering succeeds and keeps the message.  For a formatter of a
    recognized format, whatever [logging.ECHO] was bound to when it was built
    and whatever the severity of the record, [format] yields a line, and the
    line ends with the message of the record. *)
Theorem rendering_keeps_the_message (i : nat) (fmt : string) (v : logging.PyVal)
    (r : logging.LogRecord) :
  recognized fmt →
  let f := {| logging.fmt_ident := i; logging.fmt_str := fmt_str_of fmt;
              logging.FORMATS := FORMATS_of (fmt_str_of fmt) v |} in
  ∃ head, __CustomFormatter_format f r = Some (head +:+ logging.message r).
Proof.
  intros Hf f.
  destruct (FORMATS_of_entry (fmt_str_of fmt) v (logging.levelno r))
    as [Hn | (color & Hc & Hl)].
  - exists "". now apply custom_format_no_entry.
  - exists (Ansi.C color +:+ rendered_prefix fmt r +:+ Ansi.C "reset" +:+ " ").
    rewrite (custom_format_entry f r (Ansi.C color) (fmt_str_of fmt)
               (rendered_prefix fmt r) Hl).
    + now rewrite !append_assoc.
    + rewrite !elem_of_cons, elem_of_nil in Hc.
      destruct Hc as [->|[->|[->|[->|[->|[->|[->|[]]]]]]]]; reflexivity.
    + now apply rendered_prefix_ok.
Qed.

Lemma rendering_keeps_the_message_witness :
  ∃ head,
    __CustomFormatter_format
      {| logging.fmt_ident := 1; logging.fmt_str := fmt_str_of "long";
         logging.FORMATS := FORMATS_of (fmt_str_of "long") logging.PForeign |}
      odd_record
    = Some (head +:+ logging.message odd_record).
Proof.
  apply (rendering_keeps_the_message 1 "long" logging.PForeign odd_record).
  unfold recognized. rewrite !elem_of_cons. tauto.
Defined.

(** ** [echo], beyond the claims *)

Lemma has_char_cons c d s :
  Py.has_char c (String d s) = Ascii.eqb c d || Py.has_char c s.
Proof. reflexivity. Qed.

Lemma has_char_append c s t :
  Py.has_char c (s +:+ t) = Py.has_char c s || Py.has_char c t.
Proof.
  induction s as [|d s IH]; [done|]. rewrite append_cons, !has_char_cons.
  now rewrite IH, orb_assoc.
Qed.

Lemma rev_app_rev_app a b c :
  String.rev_app (String.rev_app a b) c = String.rev_app b (a +:+ c).
Proof.
  revert b c. induction a as [|x a IH]; intros b c; [done|].
  cbn [String.rev_app]. now rewrite IH, append_cons.
Qed.

Lemma rev_rev_app a : String.rev (String.rev_app a "") = a.
Proof. unfold String.rev. now rewrite rev_app_rev_app, append_nil_r. Qed.

(** Reading on through text without a comma. *)
Lemma split_go_no_comma a cur s :
  Py.has_char "," a = false →
  Py.split_go ", " 0 cur (a +:+ s) = Py.split_go ", " 0 (String.rev_app a cur) s.
Proof.
  revert cur. induction a as [|c a IH]; intros cur H; [done|].
  rewrite has_char_cons in H. apply orb_false_iff in H as [Hc Ha].
  rewrite append_cons. cbn [Py.split_go String.rev_app].
  replace (String.prefix ", " (String c (a +:+ s))) with false; [now apply IH|].
  cbn [String.prefix]. destruct (ascii_dec "," c) as [<-|]; [|done].
  now rewrite Ascii.eqb_refl in Hc.
Qed.

Lemma split_go_separator cur s :
  Py.split_go ", " 0 cur (", " +:+ s) = String.rev cur :: Py.split_go ", " 0 "" s.
Proof.
  rewrite !append_cons, append_nil_l. cbn [Py.split_go].
  replace (String.prefix ", " (String "," (String " " s))) with true
    by (now destruct s).
  reflexivity.
Qed.

(** Text without a comma stays in one piece. *)
Lemma split_plain a : Py.has_char "," a = false → Py.split ", " a = [a].
Proof.
  intros H. unfold Py.split. rewrite <- (append_nil_r a) at 1.
  rewrite split_go_no_comma by done. cbn. now rewrite rev_rev_app.
Qed.

Lemma split_plain_then a s :
  Py.has_char "," a = false →
  Py.split ", " (a +:+ ", " +:+ s) = a :: Py.split ", " s.
Proof.
  intros H. unfold Py.split. rewrite split_go_no_comma by done.
  now rewrite split_go_separator, rev_rev_app.
Qed.

(** Splitting undoes joining, for pieces without a comma. *)
Lemma split_join name names :
  Forall (λ n, Py.has_char "," n = false) (name :: names) →
  Py.split ", " (Py.join ", " (name :: names)) = name :: names.
Proof.
  revert name. induction names as [|n names IH]; intros name H.
  - apply split_plain. now inversion H.
  - inversion H as [|? ? Hn Hrest]; subst.
    change (Py.join ", " (name :: n :: names))
      with (name +:+ ", " +:+ Py.join ", " (n :: names)).
    rewrite split_plain_then by done. now rewrite IH.
Qed.

Lemma re_group_no_close t :
  Py.has_char ")" t = false → Py.re_group_to_last_close t = None.
Proof.
  induction t as [|c t IH]; [done|]. rewrite has_char_cons. intros H.
  apply orb_false_iff in H as [Hc Ht]. cbn [Py.re_group_to_last_close].
  rewrite (IH Ht). destruct (Ascii.eqb c Py.LF); [done|].
  rewrite Ascii.eqb_sym in Hc. now rewrite Hc.
Qed.

Lemma re_group_body body t :
  Py.has_char Py.LF body = false →
  Py.has_char ")" t = false →
  Py.re_group_to_last_close (body +:+ ")" +:+ t) = Some body.
Proof.
  intros Hb Ht. induction body as [|c body IH].
  - rewrite append_nil_l, append_cons, append_nil_l.
    cbn [Py.re_group_to_last_close]. now rewrite (re_group_no_close t Ht).
  - rewrite has_char_cons in Hb. apply orb_false_iff in Hb as [Hc Hb].
    rewrite append_cons. cbn [Py.re_group_to_last_close].
    rewrite Ascii.eqb_sym in Hc. now rewrite Hc, (IH Hb).
Qed.

Lemma re_search_head head rest g :
  Py.has_char "(" head = false →
  Py.re_group_to_last_close rest = Some g →
  Py.re_search_parens (head +:+ "(" +:+ rest) = Some g.
Proof.
  intros Hh Hg. induction head as [|c head IH].
  - rewrite append_nil_l, append_cons, append_nil_l.
    cbn [Py.re_search_parens]. now rewrite Hg.
  - rewrite has_char_cons in Hh. apply orb_false_iff in Hh as [Hc Hh].
    rewrite append_cons. cbn [Py.re_search_parens].
    rewrite Ascii.eqb_sym in Hc. now rewrite Hc, (IH Hh).
Qed.

Lemma re_search_no_open line :
  Py.has_char "(" line = false → Py.re_search_parens line = None.
Proof.
  induction line as [|c line IH]; [done|]. rewrite has_char_cons. intros H.
  apply orb_false_iff in H as [Hc Hl]. rewrite Ascii.eqb_sym in Hc.
  cbn [Py.re_search_parens]. now rewrite Hc, (IH Hl).
Qed.

Lemma re_search_no_close line :
  Py.has_char ")" line = false → Py.re_search_parens line = None.
Proof.
  induction line as [|c line IH]; [done|]. rewrite has_char_cons. intros H.
  apply orb_false_iff in H as [Hc Hl]. cbn [Py.re_search_parens].
  rewrite (IH Hl), (re_group_no_close line Hl).
  now destruct (Ascii.eqb c "(").
Qed.

Lemma has_char_join c name names :
  Forall (λ n, Py.has_char c n = false) (name :: names) →
  Py.has_char c ", " = false →
  Py.has_char c (Py.join ", " (name :: names)) = false.
Proof.
  intros H Hsep. revert name H.
  induction names as [|n names IH]; intros name H.
  - now inversion H.
  - inversion H as [|? ? Hn Hrest]; subst.
    change (Py.join ", " (name :: n :: names))
      with (name +:+ ", " +:+ Py.join ", " (n :: names)).
    now rewrite !has_char_append, Hn, Hsep, (IH n Hrest).
Qed.

Lemma zip_length {A B} (xs : list A) (ys : list B) :
  length (Py.zip xs ys) = (length xs `min` length ys)%nat.
Proof.
  revert ys. induction xs as [|x xs IH]; intros [|y ys]; cbn; try done.
  now rewrite IH.
Qed.

Section MoreEcho.

Context {Value : Type} (format_value : Value → string).

(** X13: what [echo] reads back from the source.  For a call whose
    arguments are written as expressions without a comma, separated by a comma
    and a blank, with no opening parenthesis before the call's own and no
    closing one after it, the names are exactly these expressions, in
    order, and the [i]-th is paired with the [i]-th value. *)
Theorem echo_reads_plain_arguments (head tail name : string)
    (names : list string) (args : list Value) :
  Py.has_char "(" head = false →
  Py.has_char ")" tail = false →
  Forall plain_expression (name :: names) →
  let r := Py.join ", " (name :: names) in
  Py.re_search_parens (head +:+ "(" +:+ r +:+ ")" +:+ tail) = Some r
  ∧ Py.split ", " r = name :: names
  ∧ echo_pairs r args [] = Py.zip (name :: names) args.
Proof.
  intros Hh Ht Hn r.
  assert (Hc : Forall (λ n, Py.has_char "," n = false) (name :: names))
    by (eapply Forall_impl; [exact Hn | now intros ? []]).
  assert (Hl : Forall (λ n, Py.has_char Py.LF n = false) (name :: names))
    by (eapply Forall_impl; [exact Hn | now intros ? []]).
  assert (Hs : Py.split ", " r = name :: names) by now apply split_join.
  split; [|split; [exact Hs|]].
  - apply re_search_head; [done|]. apply re_group_body; [|done].
    now apply has_char_join.
  - unfold echo_pairs. cbn [length]. rewrite bool_decide_eq_false_2 by lia.
    now rewrite Hs.
Qed.

Lemma echo_each_lines pairs header now st fmt :
  root_echoes st fmt →
  echo_each format_value logging.Root header pairs now st
  = (logging.Returned tt,
     logging.set_stderr
       (λ out, (out ++ echo_lines format_value st fmt header now pairs)%list) st).
Proof.
  revert st. induction pairs as [|[var val] pairs IH]; intros st Hroot.
  - destruct st. unfold logging.ret, logging.set_stderr, echo_lines. cbn.
    now rewrite app_nil_r.
  - cbn [echo_each].
    rewrite (run_returned _ _ _ _ _ (Logger_echo_root st fmt _ now Hroot)).
    rewrite IH by now apply root_echoes_after_write.
    unfold logging.set_stderr, echo_lines. cbn. now rewrite <- app_assoc.
Qed.

(** X14: one line per pair.  On a root logger set up by this module [echo]
    returns after writing one line for every pair of a name and a value, in
    order and to the error stream only; without keywords these are as many
    lines as there are names or values, whichever are fewer. *)
Theorem echo_writes_one_line_per_pair (args : list Value)
    (kwargs : list (string * Value)) (frameinfo : FrameInfo) (line r : string)
    (rest : list string) (now : logging.Time) (st st1 : logging.State)
    (fmt : string) :
  code_context frameinfo = Some (line :: rest) →
  Py.re_search_parens line = Some r →
  get_logger None None None st = (logging.Returned logging.Root, st1) →
  root_echoes st1 fmt →
  echo format_value args kwargs (Some frameinfo) now st
  = (logging.Returned tt,
     logging.set_stderr
       (λ out, (out ++ echo_lines format_value st1 fmt (echo_header frameinfo) now
                         (echo_pairs r args kwargs))%list) st1)
  ∧ length (echo_lines format_value st1 fmt (echo_header frameinfo) now
              (echo_pairs r args []))
    = (length (Py.split ", " r) `min` length args)%nat.
Proof.
  intros Hctx Hre Hlog Hroot. split.
  - rewrite (echo_unfold _ _ _ _ _ _ _ _ _ _ Hctx Hre Hlog).
    now apply echo_each_lines.
  - unfold echo_lines. rewrite length_fmap. unfold echo_pairs. cbn [length].
    rewrite bool_decide_eq_false_2 by lia. apply zip_length.
Qed.



(** X16: without source text [echo] raises and writes nothing.  With no
    caller frame, no source context, or a first line that lacks a parenthesis,
    [echo] ends in an exception; the streams are as before, and the state is
    the one its call of [get_logger()] produced, so a root logger that was not
    set up may be set up all the same. *)
Theorem echo_without_source_raises (args : list Value)
    (kwargs : list (string * Value)) (caller : option FrameInfo)
    (now : logging.Time) (st : logging.State) :
  no_source caller →
  let result := echo format_value args kwargs caller now st in
  (∃ e, result.1 = logging.Raised e)
  ∧ result.2 = (get_logger None None None st).2
  ∧ logging.stdout result.2 = logging.stdout st
  ∧ logging.stderr result.2 = logging.stderr st.
Proof.
  intros Hno result.
  assert (H : (∃ e, result.1 = logging.Raised e)
              ∧ result.2 = (get_logger None None None st).2).
  { subst result. unfold echo, logging.bind.
    destruct (get_logger None None None st) as [[log|e] st1]; [|cbn; eauto].
    destruct caller as [frameinfo|]; [|cbn; eauto]. cbn in Hno.
    destruct (code_context frameinfo) as [[|line rest]|]; try (cbn; eauto).
    destruct Hno as [Ho | Hc].
    - rewrite (re_search_no_open line Ho). cbn. eauto.
    - rewrite (re_search_no_close line Hc). cbn. eauto. }
  destruct H as [H1 H2]. split; [exact H1|]. split; [exact H2|].
  rewrite H2. apply get_logger_writes_nothing.
Qed.

End MoreEcho.

Lemma echo_reads_plain_arguments_witness :
  Py.re_search_parens ("    echo(x + 1, f(y), z)" +:+ Py.ch Py.LF) = Some "x + 1, f(y), z"
  ∧ Py.split ", " "x + 1, f(y), z" = ["x + 1"; "f(y)"; "z"]
  ∧ echo_pairs "x + 1, f(y), z" [1; 2; 3] []
    = [("x + 1", 1); ("f(y)", 2); ("z", 3)].
Proof.
  apply (echo_reads_plain_arguments "    echo" (Py.ch Py.LF) "x + 1" ["f(y)"; "z"]
           [1; 2; 3]).
  - reflexivity.
  - reflexivity.
  - repeat constructor.
Defined.

Lemma echo_writes_one_line_per_pair_witness :
  echo (λ z : Z, pretty z) [1; 2; 3] [] (Some (call_site "echo(a, b)")) noon fresh
  = (logging.Returned tt,
     logging.set_stderr
       (λ out, (out ++ echo_lines (λ z : Z, pretty z) configured_root "short-time"
                         (echo_header (call_site "echo(a, b)")) noon
                         (echo_pairs "a, b" [1; 2; 3] []))%list)
       configured_root)
  ∧ length (echo_lines (λ z : Z, pretty z) configured_root "short-time"
              (echo_header (call_site "echo(a, b)")) noon
              (echo_pairs "a, b" [1; 2; 3] []))
    = (length (Py.split ", " "a, b") `min` length [1; 2; 3])%nat.
Proof.
  apply (echo_writes_one_line_per_pair (λ z : Z, pretty z) [1; 2; 3] []
           (call_site "echo(a, b)") ("echo(a, b)" +:+ Py.ch Py.LF) "a, b" [] noon
           fresh configured_root "short-time").
  - reflexivity.
  - reflexivity.
  - vm_compute. reflexivity.
  - exact configured_root_echoes.
Defined.


Lemma echo_without_source_raises_witness :
  (∃ e, (echo (λ z : Z, pretty z) [1] [] None noon fresh).1 = logging.Raised e)
  ∧ (echo (λ z : Z, pretty z) [1] [] None noon fresh).2 = configured_root.
Proof.
  destruct (echo_without_source_raises (λ z : Z, pretty z) [1] [] None noon fresh)
    as (H1 & H2 & _).
  - exact I.
  - split; [exact H1 | exact H2].
Defined.

Lemma zip_app {A B} (xs xs' : list A) (ys ys' : list B) :
  length xs = length ys →
  Py.zip (xs ++ xs') (ys ++ ys') = (Py.zip xs ys ++ Py.zip xs' ys')%list.
Proof.
  revert ys. induction xs as [|x xs IH]; intros [|y ys] H; cbn in *;
    try done. now rewrite IH by lia.
Qed.

Lemma zip_fst_snd {A B} (ps : list (A * B)) : Py.zip ps.*1 ps.*2 = ps.
Proof. induction ps as [|[a b] ps IH]; cbn; [done|]. now rewrite IH. Qed.

Section Keywords.

Context {Value : Type} (format_value : Value → string).

(** X18: when keywords name their values.  If a call passes one positional
    argument more than it passes keywords, and the line shows that many
    expressions at least, the positional values are paired with the leading
    expressions and every keyword value with its keyword. *)
Theorem keywords_name_their_values (r : string) (args : list Value)
    (kwargs : list (string * Value)) :
  length args = (length kwargs + 1)%nat →
  (length kwargs + 1 ≤ length (Py.split ", " r))%nat →
  echo_pairs r args kwargs
  = (Py.zip (take (length kwargs + 1) (Py.split ", " r)) args ++ kwargs)%list.
Proof.
  intros Ha Hn. destruct kwargs as [|kw kwargs].
  - unfold echo_pairs. cbn [length]. rewrite bool_decide_eq_false_2 by lia.
    rewrite app_nil_r. cbn in Ha.
    destruct args as [|a [|? ?]]; try discriminate.
    destruct (Py.split ", " r) as [|n0 [|n1 ns]]; reflexivity.
  - rewrite echo_pairs_with_kwargs, zip_app, zip_fst_snd; [done|].
    rewrite length_take. lia.
Qed.

(** X19: a root logger set up by somebody else.  When the root logger has
    handlers and the custom level was never registered, [get_logger()] takes
    the fast path and registers nothing, so the first [log.echo] of [echo]
    fails with an [AttributeError]; nothing is written and the state is
    unchanged. *)
Theorem echo_fails_on_foreign_root (args : list Value)
    (kwargs : list (string * Value)) (frameinfo : FrameInfo) (line r : string)
    (rest : list string) (now : logging.Time) (st : logging.State) :
  logging.handlers (logging.root st) ≠ [] →
  logging.class_ns st !! "echo" = None →
  code_context frameinfo = Some (line :: rest) →
  Py.re_search_parens line = Some r →
  echo_pairs r args kwargs ≠ [] →
  echo format_value args kwargs (Some frameinfo) now st
  = (logging.Raised (logging.AttributeError_no_attribute "echo"), st).
Proof.
  intros Hh Hm Hctx Hre Hp.
  rewrite (echo_unfold _ _ _ _ _ _ _ _ _ _ Hctx Hre (get_logger_fast_path None st Hh)).
  destruct (echo_pairs r args kwargs) as [|[var val] pairs]; [done|].
  cbn [echo_each]. apply run_raised. unfold Logger.echo. now rewrite Hm.
Qed.

End Keywords.

Lemma keywords_name_their_values_witness :
  echo_pairs "'text', a, blah=b" ["text"; "2"] [("blah", "[3, 4]")]
  = (Py.zip (take 2 (Py.split ", " "'text', a, blah=b")) ["text"; "2"]
       ++ [("blah", "[3, 4]")])%list.
Proof.
  apply (keywords_name_their_values "'text', a, blah=b" ["text"; "2"]
           [("blah", "[3, 4]")]).
  - reflexivity.
  - vm_compute. lia.
Defined.

Lemma echo_fails_on_foreign_root_witness :
  echo (λ z : Z, pretty z) [1; 2] [] (Some (call_site "echo(a, b)")) noon foreign_root
  = (logging.Raised (logging.AttributeError_no_attribute "echo"), foreign_root).
Proof.
  apply (echo_fails_on_foreign_root (λ z : Z, pretty z) [1; 2] []
           (call_site "echo(a, b)") ("echo(a, b)" +:+ Py.ch Py.LF) "a, b" [] noon
           foreign_root).
  - discriminate.
  - reflexivity.
  - reflexivity.
  - reflexivity.
  - discriminate.
Defined.

(** ** [newline], beyond the claims *)

(** X17: [newline] as the first call.  In a process where nothing is
    registered and the root logger has no handler, [newline(n)] first sets the
    root logger up as [get_logger()] does, with the custom level as threshold,
    which is below INFO; so it then prints its line feeds.  The error stream
    is not written to. *)
Theorem newline_on_first_use (n : Z) (st : logging.State) :
  unregistered st →
  logging.handlers (logging.root st) = [] →
  ∃ st1,
    get_logger None None None st = (logging.Returned logging.Root, st1)
    ∧ root_echoes st1 "short-time"
    ∧ newline n st
      = (logging.Returned tt,
         logging.set_stdout
           (λ out, (out ++ [line_feeds (Z.to_nat (Z.max n 1))])%list) st1)
    ∧ logging.stderr st1 = logging.stderr st.
Proof.
  intros Hu Hh. destruct (first_use_echoes st Hu Hh) as (st1 & Hlog & Hroot).
  exists st1. split; [exact Hlog|]. split; [exact Hroot|]. split.
  - unfold newline. rewrite (run_returned _ _ _ _ _ Hlog), run_get.
    cbn [logging.logger_at].
    destruct Hroot as (_ & _ & Hlv & _).
    rewrite bool_decide_eq_true_2
      by (unfold ECHO_LEVEL, logging.DEBUG, logging.INFO in *; lia).
    unfold print, logging.modify, logging.set_stdout.
    rewrite line_feeds_print.
    now replace (S (Z.to_nat (n - 1))) with (Z.to_nat (Z.max n 1)) by lia.
  - pose proof (get_logger_writes_nothing None None None st) as [_ H].
    now rewrite Hlog in H.
Qed.

Lemma newline_on_first_use_witness :
  ∃ st1,
    get_logger None None None fresh = (logging.Returned logging.Root, st1)
    ∧ root_echoes st1 "short-time"
    ∧ newline 0 fresh
      = (logging.Returned tt,
         logging.set_stdout
           (λ out, (out ++ [line_feeds (Z.to_nat (Z.max 0 1))])%list) st1)
    ∧ logging.stderr st1 = logging.stderr fresh.
Proof.
  apply (newline_on_first_use 0 fresh).
  - repeat split; vm_compute; reflexivity.
  - reflexivity.
Defined.
